(** * Zero-Shot vs Zero-Shot-CoT experiment runner: a shallow embedding

    This development embeds [src/cot_experiment.py] in Rocq and proves
    properties of its prompt builder, its evaluator, its retry loop and
    its orchestration loop.

    Conventions.
    - A Python [str] is a sequence of Unicode code points: [list N].
    - Python's [float] options (temperature, retry_wait, pause) are finite
      doubles, written as exact rationals [Q]; NaN and infinite option
      values are outside the model. The one float operation of the program,
      [wait * (2**attempt)], is exact on doubles unless it overflows; the
      overflow of the int-to-float conversion and the range that
      [time.sleep] accepts are modelled ([float_of_int_overflows],
      [time_sleep]).
    - The Unicode tables behind [str.isspace], [str.isalnum] and
      [str.lower] belong to the Python runtime, not to the repository; they
      are a parameter ([UnicodeData]).  A fragment of CPython's tables
      ([cpython_fragment]) is used to evaluate concrete inputs.
    - Effects (service requests, sleeps, directory creation, file writes)
      are recorded in a chronological trace carried by the [world].
    - Failures inside [save_results] (of the file system, or of the UTF-8
      encoding of a text that holds a lone surrogate) are not modelled.
    - [print] diagnostics are not modelled. *)

From Stdlib Require Import ZArith NArith QArith List String Ascii Lia Bool.
From stdpp Require Import base option list gmap.

Close Scope Q_scope.
Open Scope N_scope.
Open Scope list_scope.

(** ** Python strings *)

Abbreviation codepoint := N (only parsing).
Abbreviation str := (list N) (only parsing).

(** UTF-8 decoding of a Rocq string literal, so that Python literals of the
    source can be written as they appear there: [py "答案是20"]. *)
Fixpoint utf8_decode (pending : nat) (acc : N) (bytes : list N) : str :=
  match bytes with
  | [] => []
  | b :: rest =>
      match pending with
      | O =>
          if b <? 0x80 then b :: utf8_decode 0 0 rest
          else if b <? 0xE0 then utf8_decode 1 (b - 0xC0) rest
          else if b <? 0xF0 then utf8_decode 2 (b - 0xE0) rest
          else utf8_decode 3 (b - 0xF0) rest
      | S O => (acc * 64 + (b - 0x80)) :: utf8_decode 0 0 rest
      | S p => utf8_decode p (acc * 64 + (b - 0x80)) rest
      end
  end.

Fixpoint bytes_of_string (s : string) : list N :=
  match s with
  | EmptyString => []
  | String a s' => N_of_ascii a :: bytes_of_string s'
  end.

Definition py (s : string) : str := utf8_decode 0 0 (bytes_of_string s).

(** ** The runtime's Unicode tables *)

Class UnicodeData := {
  isspace : codepoint -> bool;      (* str.isspace on one code point *)
  isalnum : codepoint -> bool;      (* str.isalnum on one code point *)
  lower : codepoint -> str;         (* str.lower on one code point *)
}.

(** The code points on which CPython's [str.isspace] holds (complete). *)
Definition py_isspace (c : codepoint) : bool :=
  ((0x9 <=? c) && (c <=? 0xD)) || ((0x1C <=? c) && (c <=? 0x20))
  || (c =? 0x85) || (c =? 0xA0) || (c =? 0x1680)
  || ((0x2000 <=? c) && (c <=? 0x200A))
  || (c =? 0x2028) || (c =? 0x2029) || (c =? 0x202F) || (c =? 0x205F)
  || (c =? 0x3000).

Definition latin1_upper (c : codepoint) : bool :=
  (0xC0 <=? c) && (c <=? 0xDE) && negb (c =? 0xD7).

(** [str.isalnum] on Basic Latin, Latin-1 Supplement, U+0130, U+0307 and the
    CJK Unified Ideographs U+4E00..U+9FA5.  Other blocks are not tabulated
    here (the fragment answers [false] there). *)
Definition py_isalnum (c : codepoint) : bool :=
  ((0x30 <=? c) && (c <=? 0x39))
  || ((0x41 <=? c) && (c <=? 0x5A))
  || ((0x61 <=? c) && (c <=? 0x7A))
  || (c =? 0xAA) || (c =? 0xB2) || (c =? 0xB3) || (c =? 0xB5)
  || (c =? 0xB9) || (c =? 0xBA)
  || ((0xBC <=? c) && (c <=? 0xBE))
  || ((0xC0 <=? c) && (c <=? 0xFF) && negb (c =? 0xD7) && negb (c =? 0xF7))
  || (c =? 0x130)
  || ((0x4E00 <=? c) && (c <=? 0x9FA5)).

(** [str.lower] on the same blocks.  U+0130 (capital I with dot above)
    lower-cases to the two code points U+0069 U+0307. *)
Definition py_lower (c : codepoint) : str :=
  if (0x41 <=? c) && (c <=? 0x5A) then [c + 0x20]
  else if latin1_upper c then [c + 0x20]
  else if c =? 0x130 then [0x69; 0x307]
  else [c].

Definition cpython_fragment : UnicodeData :=
  {| isspace := py_isspace; isalnum := py_isalnum; lower := py_lower |}.

Section Text.
Context {U : UnicodeData}.

(** ** str.strip, str.endswith, the [in] operator *)

Fixpoint lstrip (s : str) : str :=
  match s with
  | [] => []
  | c :: s' => if isspace c then lstrip s' else s
  end.

Definition rstrip (s : str) : str := rev (lstrip (rev s)).

Definition strip (s : str) : str := rstrip (lstrip s).

Definition endswith (s suffix : str) : bool :=
  bool_decide (suffix `suffix_of` s).

Fixpoint startswith (s prefix : str) : bool :=
  match prefix, s with
  | [], _ => true
  | _ :: _, [] => false
  | p :: prefix', c :: s' => (p =? c) && startswith s' prefix'
  end.

(** [contains s sub] is Python's [sub in s]. *)
Fixpoint contains (s sub : str) : bool :=
  startswith s sub
  || match s with
     | [] => false
     | _ :: s' => contains s' sub
     end.

Definition is_empty (s : str) : bool :=
  match s with [] => true | _ => false end.

(** ** PromptBuilder *)

(** <<
    def build_prompt(question: str, suffix: str) -> str:
        suffix = suffix.strip()
        if suffix and not question.endswith(suffix):
            return f"{question.strip()} {suffix}".strip()
        return question.strip()
    >> *)
Definition build_prompt (question suffix : str) : str :=
  let suffix := strip suffix in
  if negb (is_empty suffix) && negb (endswith question suffix)
  then strip (strip question ++ [0x20] ++ suffix)
  else strip question.

(** ** Evaluator *)

(** <<
    def normalize_text(s: str) -> str:
        return "".join(ch.lower() for ch in s if ch.isalnum())
    >> *)
Definition normalize_text (s : str) : str :=
  flat_map (fun ch => if isalnum ch then lower ch else []) s.

(** <<
    def is_answer_correct(answer: str, ground_truth: str) -> Optional[bool]:
        if not ground_truth:
            return None
        normalized_truth = normalize_text(ground_truth)
        normalized_answer = normalize_text(answer)
        if not normalized_truth:
            return None
        return normalized_truth in normalized_answer
    >> *)
Definition is_answer_correct (answer ground_truth : str) : option bool :=
  if is_empty ground_truth then None
  else
    let normalized_truth := normalize_text ground_truth in
    let normalized_answer := normalize_text answer in
    if is_empty normalized_truth then None
    else Some (contains normalized_answer normalized_truth).

End Text.

(** ** Data model *)

(** <<
    @dataclasses.dataclass
    class QuestionSpec:
        prompt: str
        ground_truth: str
        rationale: str
    >> *)
Record QuestionSpec := {
  prompt : str;
  ground_truth : str;
  rationale : str;
}.

Definition DEFAULT_QUESTIONS : list QuestionSpec :=
  [ {| prompt := py "一个篮子里有15个苹果。如果小明拿走了3个，然后小红又放入了比现在"
                 ++ py "篮子里苹果数多一半的苹果，最后篮子里有多少个苹果？";
       ground_truth := py "30";
       rationale := py "多步算术题，容易在'比现在多一半'的语义上出错。" |};
    {| prompt := py "如果三只猫三天能捉三只老鼠，那么九只猫九天能捉多少只老鼠？";
       ground_truth := py "27";
       rationale := py "比例推理题，考察单位速率是否被正确抽象。" |};
    {| prompt := py "我前面有两个人，后面有两个人，我们这一排一共有多少人？";
       ground_truth := py "5";
       rationale := py "空间关系题，Zero-Shot常把答案误判为4。" |} ].

(** The [argparse.Namespace] that [parse_args] returns. *)
Record Namespace := {
  model : str;
  temperature : Q;
  cot_suffix : str;
  zero_shot_suffix : str;
  max_retries : Z;
  retry_wait : Q;
  pause : Q;
  output_dir : str;
  questions_file : option str;
  base_url : option str;
  replay_file : option str;
  dry_run : bool;
  save_markdown : bool;
  tag : option str;
}.

(** Python truthiness of an optional string: [None] and [""] are falsy. *)
Definition truthy (o : option str) : bool :=
  match o with
  | Some (_ :: _) => true
  | _ => false
  end.

(** One object of the questions fixture: [prompt] is read with
    [item["prompt"]], the other two keys with [item.get(key, "")]. *)
Record question_item := {
  item_prompt : str;
  item_ground_truth : option str;
  item_rationale : option str;
}.

(** One object of the replay fixture's [records] array. *)
Record replay_item := {
  rec_question : str;
  rec_zero_shot_answer : str;
  rec_cot_answer : str;
}.

(** The replay fixture's top-level object; its [records] key may be absent
    ([data.get("records", [])]). *)
Record replay_document := {
  doc_records : option (list replay_item);
}.

(** The value stored per question in the replay lookup:
    [{"zero_shot": ..., "cot": ...}]. *)
Record replay_answers := {
  zero_shot : str;
  cot : str;
}.

(** The result-entry dict that [main] appends per question. *)
Record ResultEntry := {
  entry_question : str;
  entry_rationale : str;
  entry_ground_truth : str;
  entry_zero_shot_prompt : str;
  entry_cot_prompt : str;
  entry_zero_shot_answer : str;
  entry_cot_answer : str;
  entry_zero_shot_correct : option bool;
  entry_cot_correct : option bool;
}.

(** The metadata dict; the key [replay_file] is present only when
    [args.replay_file] is truthy. *)
Record Metadata := {
  meta_run_id : str;
  meta_model : str;
  meta_temperature : Q;
  meta_cot_suffix : str;
  meta_zero_shot_suffix : str;
  meta_question_count : nat;
  meta_timestamp : str;
  meta_replay_file : option str;
}.

(** [pathlib.Path] values built by [Path(s)] and the [/] operator. *)
Inductive path :=
| Path (s : str)
| PathDiv (p : path) (name : str).

(** What is written to a file: the JSON payload of [results.json], or the
    table of [results.md] ([format_markdown], kept structured). *)
Inductive file_content :=
| JsonPayload (metadata : Metadata) (records : list ResultEntry)
| MarkdownTable (results : list ResultEntry) (metadata : Metadata).

(** The OpenAI client object. *)
Record Client := {
  client_api_key : str;
  client_base_url : option str;
}.

(** The exception caught by [except Exception] around a service request,
    as its message. *)
Abbreviation api_error := (list N) (only parsing).

Inductive runtime_message :=
| SdkNotInstalled                                (* openai SDK 未安装 *)
| ApiCallFailed (last_error : option api_error). (* API 调用失败: {last_error} *)

(** The exceptions that the program can end with, by the name the raising
    code gives them. ([EnvironmentError] is how [build_client] names the
    class that the runtime calls OSError; the two constructors stand for
    exceptions with different arguments.) *)
Inductive exn :=
| EnvironmentError                (* OPENAI_API_KEY 未设置 *)
| RuntimeError (msg : runtime_message)
| KeyError (key : str)            (* replay 数据中缺少问题: {question.prompt} *)
| ValueError                      (* time.sleep: sleep length must be non-negative *)
| OverflowError                   (* int too large to convert to float;
                                     time.sleep: timestamp too large to convert to C _PyTime_t *)
| OSError.                        (* time.sleep: [Errno 22] Invalid argument *)

(** ** Effects *)

Inductive event :=
| EvClient (c : Client)                                    (* OpenAI(api_key=, base_url=) *)
| EvRequest (c : Client) (model prompt : str) (temperature : Q)
                                                           (* client.chat.completions.create *)
| EvSleep (secs : Q)                                       (* time.sleep *)
| EvMkdir (p : path)                                       (* Path.mkdir(parents=True, exist_ok=True) *)
| EvWriteText (p : path) (content : file_content).         (* Path.write_text *)

(** What the program reads from its surroundings. [service k] is the
    outcome of the [k]-th request sent to the text-generation service;
    [os_sleep secs] tells whether the operating system carries out a sleep
    of [secs] seconds that the runtime has accepted (Linux refuses a
    deadline past the end of its monotonic clock, other systems have lower
    limits). *)
Record environment := {
  OPENAI_API_KEY : option str;
  openai_installed : bool;
  questions_json : str -> list question_item;
  replay_json : str -> replay_document;
  service : nat -> str -> str -> Q -> api_error + str;
  os_sleep : Q -> bool;
  clock_stamp : str;         (* dt.datetime.now().strftime("%Y%m%d-%H%M%S") *)
  clock_isoformat : str;     (* dt.datetime.now().isoformat() *)
}.

Record world := {
  requests : nat;            (* number of requests sent so far *)
  trace : list event;        (* effects so far, oldest first *)
}.

Definition initial_world : world := {| requests := 0; trace := [] |}.

Inductive outcome (A : Type) :=
| Returned (a : A)
| Raised (e : exn)
| OutOfFuel.
Arguments Returned {A} a.
Arguments Raised {A} e.
Arguments OutOfFuel {A}.

Definition M (A : Type) : Type := world -> outcome A * world.

Definition ret {A} (a : A) : M A := fun w => (Returned a, w).

Definition raise {A} (e : exn) : M A := fun w => (Raised e, w).

Definition bind {A B} (m : M A) (k : A -> M B) : M B :=
  fun w =>
    match m w with
    | (Returned a, w') => k a w'
    | (Raised e, w') => (Raised e, w')
    | (OutOfFuel, w') => (OutOfFuel, w')
    end.

Declare Scope py_scope.
Delimit Scope py_scope with py.
Notation "x <- m ;; k" := (bind m (fun x => k))
  (at level 100, m at next level, right associativity) : py_scope.
Notation "m ;;; k" := (bind m (fun _ => k))
  (at level 100, right associativity) : py_scope.
Open Scope py_scope.

Definition emit (e : event) : M unit :=
  fun w => (Returned tt, {| requests := requests w; trace := trace w ++ [e] |}).

(** The runtime converts the length of a sleep to a number of nanoseconds,
    which has to fit a signed 64-bit integer: the lengths from -2^63 ns up
    to, not including, 2^63 ns (about 9.22e9 seconds). The runtime makes
    the test on the product rounded to a double; on doubles the two tests
    agree except at the doubles nearest to the bounds, 9223372036.854776
    and its opposite, which the runtime may reject with ValueError where
    this test answers OverflowError. *)
Definition sleep_ns_in_range (secs : Q) : bool :=
  let ns := (secs * inject_Z (10 ^ 9))%Q in
  Qle_bool (inject_Z (- 2 ^ 63)) ns && negb (Qle_bool (inject_Z (2 ^ 63)) ns).

(** [time.sleep(secs)]: OverflowError when the length is out of range (the
    first test made, so also for a negative length out of range), ValueError
    when it is negative, OSError when the operating system refuses the
    length; otherwise the sleep takes place. *)
Definition time_sleep (env : environment) (secs : Q) : M unit :=
  if negb (sleep_ns_in_range secs) then raise OverflowError
  else if negb (Qle_bool 0 secs) then raise ValueError
  else if negb (os_sleep env secs) then raise OSError
  else emit (EvSleep secs).

(** [float(n)] for an int [n], as the product of a float and an int
    computes it: OverflowError when [n] is too large for a double, which
    for a power of two means from 2**1024 on (smaller powers of two convert
    exactly). *)
Definition float_of_int_overflows (n : Z) : bool := (2 ^ 1024 <=? n)%Z.

Definition attribute_error : api_error :=
  py "'NoneType' object has no attribute 'chat'".

(** The body of the [try] block of [run_chat_completion]: one request to the
    service, which either yields the message content or raises. With
    [client = None] the attribute access raises before any request. *)
Definition chat_completions_create (env : environment) (client : option Client)
    (model prompt : str) (temperature : Q) : world -> (api_error + str) * world :=
  fun w =>
    match client with
    | None => (inl attribute_error, w)
    | Some c =>
        (service env (requests w) model prompt temperature,
         {| requests := S (requests w);
            trace := trace w ++ [EvRequest c model prompt temperature] |})
    end.

(** ** RetryingExecutor *)

(** <<
    attempt = 0
    wait = retry_wait
    last_error = None
    while attempt <= max_retries:
        try:
            response = client.chat.completions.create(...)
            return response.choices[0].message.content
        except Exception as exc:
            last_error = exc
            if attempt == max_retries:
                break
            sleep = wait * (2**attempt)
            time.sleep(sleep)
            attempt += 1
    raise RuntimeError(f"API 调用失败: {last_error}")
    >>
    [retry_loop] is the [while] loop: it yields [inl content] when the
    function returns from inside the loop and [inr last_error] when the
    loop is left (condition false, or [break]). The product
    [wait * (2**attempt)] converts the int [2**attempt] to a float, which
    raises OverflowError inside the handler when the int is too large; a
    product that is too large for a double is infinite, and [time.sleep]
    rejects it as it rejects every length beyond its range. *)
Fixpoint retry_loop (env : environment) (client : option Client)
    (model prompt : str) (temperature : Q) (max_retries : Z) (wait : Q)
    (fuel : nat) (attempt : Z) (last_error : option api_error)
    : M (str + option api_error) :=
  if (attempt <=? max_retries)%Z then
    match fuel with
    | O => fun w => (OutOfFuel, w)
    | S fuel' =>
        fun w =>
          match chat_completions_create env client model prompt temperature w with
          | (inr content, w1) => (Returned (inl content), w1)
          | (inl exc, w1) =>
              let last_error := Some exc in
              if (attempt =? max_retries)%Z then (Returned (inr last_error), w1)
              else if float_of_int_overflows (2 ^ attempt) then (Raised OverflowError, w1)
              else
                let sleep := (wait * inject_Z (2 ^ attempt))%Q in
                (time_sleep env sleep ;;;
                 retry_loop env client model prompt temperature max_retries wait
                   fuel' (attempt + 1)%Z last_error) w1
          end
    end
  else ret (inr last_error).

Definition run_chat_completion (env : environment) (client : option Client)
    (model prompt : str) (temperature : Q) (max_retries : Z) (retry_wait : Q)
    : M str :=
  r <- retry_loop env client model prompt temperature max_retries retry_wait
         (Z.to_nat (max_retries + 1)) 0%Z None ;;
  match r with
  | inl content => ret content
  | inr last_error => raise (RuntimeError (ApiCallFailed last_error))
  end.

(** ** QuestionSource and replay fixture *)

(** <<
    def load_questions(path):
        if not path:
            return DEFAULT_QUESTIONS
        data = json.loads(Path(path).read_text("utf-8"))
        questions = []
        for item in data:
            questions.append(QuestionSpec(
                prompt=item["prompt"],
                ground_truth=item.get("ground_truth", ""),
                rationale=item.get("rationale", "")))
        return questions
    >> *)
Definition load_questions (env : environment) (path : option str)
    : list QuestionSpec :=
  match path with
  | Some (c :: p) =>
      map (fun item =>
             {| prompt := item_prompt item;
                ground_truth := default [] (item_ground_truth item);
                rationale := default [] (item_rationale item) |})
          (questions_json env (c :: p))
  | _ => DEFAULT_QUESTIONS
  end.

(** <<
    def load_replay_data(path):
        data = json.loads(Path(path).read_text("utf-8"))
        lookup = {}
        for item in data.get("records", []):
            lookup[item["question"]] = {
                "zero_shot": item["zero_shot_answer"],
                "cot": item["cot_answer"]}
        return lookup
    >> *)
Definition load_replay_data (env : environment) (path : str)
    : gmap str replay_answers :=
  fold_left
    (fun lookup item =>
       <[rec_question item :=
           {| zero_shot := rec_zero_shot_answer item;
              cot := rec_cot_answer item |}]> lookup)
    (default [] (doc_records (replay_json env path)))
    ∅.

(** Truthiness of a dict: non-empty. *)
Definition dict_truthy {V} (d : gmap str V) : bool :=
  negb (bool_decide (d = ∅)).

(** <<
    def build_client(base_url=None):
        api_key = os.getenv("OPENAI_API_KEY")
        if not api_key:
            raise EnvironmentError(...)
        if OpenAI is None:
            raise RuntimeError(...)
        return OpenAI(api_key=api_key, base_url=base_url)
    >> *)
Definition build_client (env : environment) (base_url : option str) : M Client :=
  match OPENAI_API_KEY env with
  | Some (c :: k) =>
      if negb (openai_installed env) then raise (RuntimeError SdkNotInstalled)
      else
        let client := {| client_api_key := c :: k; client_base_url := base_url |} in
        emit (EvClient client) ;;; ret client
  | _ => raise EnvironmentError
  end.

(** ** Simulated provider *)

Definition or_unknown (ground_truth : str) : str :=
  if is_empty ground_truth then py "未知" else ground_truth.

(** <<
    def simulate_answer(question, mode):
        intro = "[模拟回答]"
        if mode == "cot":
            return (f"{intro} 让我们一步一步地分析：\n1. 问题：{question.prompt}\n"
                    f"2. 推理……所以答案是 {question.ground_truth or '未知'}。")
        return f"{intro} {question.prompt} => {question.ground_truth or '未知'}"
    >> *)
Definition simulate_answer (question : QuestionSpec) (mode : str) : str :=
  let intro := py "[模拟回答]" in
  if bool_decide (mode = py "cot") then
    intro ++ py " 让我们一步一步地分析：" ++ [0x0A] ++ py "1. 问题：" ++ prompt question
      ++ [0x0A] ++ py "2. 推理……所以答案是 " ++ or_unknown (ground_truth question)
      ++ py "。"
  else
    intro ++ py " " ++ prompt question ++ py " => " ++ or_unknown (ground_truth question).

(** ** ResultStore *)

Definition ensure_dir (p : path) : M unit := emit (EvMkdir p).

Definition write_text (p : path) (content : file_content) : M unit :=
  emit (EvWriteText p content).

(** <<
    def save_results(results, output_dir, metadata, save_markdown):
        ensure_dir(output_dir)
        run_folder = output_dir / metadata["run_id"]
        ensure_dir(run_folder)
        result_path = run_folder / "results.json"
        payload = {"metadata": metadata, "records": results}
        result_path.write_text(json.dumps(payload, ...), "utf-8")
        if save_markdown:
            md_path = run_folder / "results.md"
            md_path.write_text(format_markdown(results, metadata), "utf-8")
        return run_folder
    >> *)
Definition save_results (results : list ResultEntry) (output_dir : path)
    (metadata : Metadata) (save_markdown : bool) : M path :=
  ensure_dir output_dir ;;;
  let run_folder := PathDiv output_dir (meta_run_id metadata) in
  ensure_dir run_folder ;;;
  let result_path := PathDiv run_folder (py "results.json") in
  write_text result_path (JsonPayload metadata results) ;;;
  (if save_markdown
   then write_text (PathDiv run_folder (py "results.md"))
          (MarkdownTable results metadata)
   else ret tt) ;;;
  ret run_folder.

(** ** RunOrchestrator *)

Section Orchestrator.
Context {U : UnicodeData}.
Variable env : environment.
Variable args : Namespace.
Variable replay_lookup : gmap str replay_answers.
Variable client : option Client.

(** Lines 298-324 of [main]: the two answers for one question. *)
Definition obtain_answers (question : QuestionSpec) (zero_prompt cot_prompt : str)
    : M (str * str) :=
  if dict_truthy replay_lookup then
    match replay_lookup !! prompt question with
    | None => raise (KeyError (prompt question))
    | Some replay => ret (zero_shot replay, cot replay)
    end
  else if dry_run args then
    ret (simulate_answer question (py "zero"), simulate_answer question (py "cot"))
  else
    zero_answer <- run_chat_completion env client (model args) zero_prompt
                     (temperature args) (max_retries args) (retry_wait args) ;;
    time_sleep env (pause args) ;;;
    cot_answer <- run_chat_completion env client (model args) cot_prompt
                    (temperature args) (max_retries args) (retry_wait args) ;;
    ret (zero_answer, cot_answer).

(** Lines 295-337 of [main]: the result entry of one question. *)
Definition result_entry_for (question : QuestionSpec) : M ResultEntry :=
  let zero_prompt := build_prompt (prompt question) (zero_shot_suffix args) in
  let cot_prompt := build_prompt (prompt question) (cot_suffix args) in
  answers <- obtain_answers question zero_prompt cot_prompt ;;
  let zero_answer := fst answers in
  let cot_answer := snd answers in
  let zero_correct := is_answer_correct zero_answer (ground_truth question) in
  let cot_correct := is_answer_correct cot_answer (ground_truth question) in
  ret {| entry_question := prompt question;
         entry_rationale := rationale question;
         entry_ground_truth := ground_truth question;
         entry_zero_shot_prompt := zero_prompt;
         entry_cot_prompt := cot_prompt;
         entry_zero_shot_answer := zero_answer;
         entry_cot_answer := cot_answer;
         entry_zero_shot_correct := zero_correct;
         entry_cot_correct := cot_correct |}.

(** The [for] loop of [main] (lines 293-341), with the list [results] it
    appends to. *)
Fixpoint question_loop (questions : list QuestionSpec) (results : list ResultEntry)
    : M (list ResultEntry) :=
  match questions with
  | [] => ret results
  | question :: rest =>
      result_entry <- result_entry_for question ;;
      let results := results ++ [result_entry] in
      time_sleep env (pause args) ;;;
      question_loop rest results
  end.

End Orchestrator.

Section Main.
Context {U : UnicodeData}.

(** Lines 343-353 of [main]. *)
Definition build_metadata (env : environment) (args : Namespace)
    (run_id : str) (questions : list QuestionSpec) : Metadata :=
  {| meta_run_id := run_id;
     meta_model := model args;
     meta_temperature := temperature args;
     meta_cot_suffix := cot_suffix args;
     meta_zero_shot_suffix := zero_shot_suffix args;
     meta_question_count := length questions;
     meta_timestamp := clock_isoformat env;
     meta_replay_file :=
       if truthy (replay_file args) then replay_file args else None |}.

(** Line 287:
    [replay_lookup = load_replay_data(args.replay_file) if args.replay_file else {}] *)
Definition replay_lookup_of (env : environment) (args : Namespace)
    : gmap str replay_answers :=
  match replay_file args with
  | Some (c :: p) => load_replay_data env (c :: p)
  | _ => ∅
  end.

(** Line 291: [run_id = args.tag or now_stamp()] *)
Definition run_id_of (env : environment) (args : Namespace) : str :=
  match tag args with
  | Some (c :: t) => c :: t
  | _ => clock_stamp env
  end.

(** Lines 288-290:
    <<
    client = None
    if not args.dry_run and not replay_lookup:
        client = build_client(args.base_url)
    >> *)
Definition setup_client (env : environment) (args : Namespace)
    (replay_lookup : gmap str replay_answers) : M (option Client) :=
  if negb (dry_run args) && negb (dict_truthy replay_lookup)
  then c <- build_client env (base_url args) ;; ret (Some c)
  else ret None.

(** [main], after [parse_args]. *)
Definition main (env : environment) (args : Namespace) : M unit :=
  let questions := load_questions env (questions_file args) in
  let replay_lookup := replay_lookup_of env args in
  client <- setup_client env args replay_lookup ;;
  let run_id := run_id_of env args in
  results <- question_loop env args replay_lookup client questions [] ;;
  let metadata := build_metadata env args run_id questions in
  save_results results (Path (output_dir args)) metadata (save_markdown args) ;;;
  ret tt.

End Main.

(** ** Definitions that follow the specification's wording

    They are compared with the definitions embedded from the source. *)

(** The prompt builder as the specification words it: both texts are
    trimmed first, the end test is made on the trimmed question, and the
    result of appending is not trimmed again. *)
Definition build_prompt_as_specified {U : UnicodeData} (question suffix : str) : str :=
  let suffix := strip suffix in
  let question := strip question in
  if negb (is_empty suffix) && negb (endswith question suffix)
  then question ++ [0x20] ++ suffix
  else question.

(** A text is [stripped] when strip has nothing to remove at either end. *)
Definition stripped {U : UnicodeData} (t : str) : Prop :=
  lstrip t = t /\ rstrip t = t.

(** The three answer providers. *)
Inductive provider := Replay | Simulated | Live.

(** Selection precedence as the specification words it: a supplied replay
    fixture selects Replay, else the dry-run flag selects Simulated. *)
Definition provider_as_specified (args : Namespace) : provider :=
  if truthy (replay_file args) then Replay
  else if dry_run args then Simulated
  else Live.

(** The branch that [main] takes for every question (lines 298, 304, 307). *)
Definition provider_in_use (args : Namespace) (replay_lookup : gmap str replay_answers)
    : provider :=
  if dict_truthy replay_lookup then Replay
  else if dry_run args then Simulated
  else Live.

(** Readiness of the provider that [main] sets up before the loop: replay
    index non-empty, or dry run, or credential present and SDK installed. *)
Definition provider_ready (env : environment) (args : Namespace) : bool :=
  dict_truthy (replay_lookup_of env args)
  || dry_run args
  || (truthy (OPENAI_API_KEY env) && openai_installed env).

(** A code point is stable when, if alphanumeric, its lower-casing consists
    of alphanumeric code points that lower-casing leaves unchanged. *)
Definition lower_stable {U : UnicodeData} (c : codepoint) : bool :=
  negb (isalnum c)
  || forallb (fun d => isalnum d && bool_decide (lower d = [d])) (lower c).

(** Observations on a trace. *)
Definition is_request (e : event) : bool :=
  match e with EvRequest _ _ _ _ => true | _ => false end.

Definition is_client (e : event) : bool :=
  match e with EvClient _ => true | _ => false end.

Definition is_persistence (e : event) : bool :=
  match e with EvMkdir _ | EvWriteText _ _ => true | _ => false end.

Definition attempts (t : list event) : nat := length (List.filter is_request t).

Definition delays (t : list event) : list Q :=
  flat_map (fun e => match e with EvSleep d => [d] | _ => [] end) t.

(** The payloads written to a [results.json], oldest first. *)
Definition persisted (t : list event) : list (path * Metadata * list ResultEntry) :=
  flat_map (fun e => match e with
                     | EvWriteText p (JsonPayload m r) => [(p, m, r)]
                     | _ => []
                     end) t.

(** The effects that a run may have before persistence, by provider: sleeps
    always; client construction and service requests only with Live. *)
Definition provider_events (pv : provider) (e : event) : bool :=
  match e with
  | EvSleep _ => true
  | EvClient _ | EvRequest _ _ _ _ =>
      match pv with Live => true | _ => false end
  | EvMkdir _ | EvWriteText _ _ => false
  end.

(** [emits P m]: [m] never runs out of fuel and only appends to the trace
    events that satisfy [P]. *)
Definition emits {A} (P : event -> bool) (m : M A) : Prop :=
  forall w, fst (m w) <> OutOfFuel
            /\ exists evs, trace (snd (m w)) = trace w ++ evs /\ forallb P evs = true.

(** What [main] stores in the result entry of a question. *)
Definition entry_for_question {U : UnicodeData} (args : Namespace)
    (q : QuestionSpec) (r : ResultEntry) : Prop :=
  entry_question r = prompt q
  /\ entry_rationale r = rationale q
  /\ entry_ground_truth r = ground_truth q
  /\ entry_zero_shot_prompt r = build_prompt (prompt q) (zero_shot_suffix args)
  /\ entry_cot_prompt r = build_prompt (prompt q) (cot_suffix args)
  /\ entry_zero_shot_correct r
     = is_answer_correct (entry_zero_shot_answer r) (ground_truth q)
  /\ entry_cot_correct r
     = is_answer_correct (entry_cot_answer r) (ground_truth q).

(** The backoff delay slept after failed attempt number [n] (from 0). *)
Definition backoff (retry_wait : Q) (n : nat) : Q :=
  (retry_wait * inject_Z (2 ^ Z.of_nat n))%Q.

(** A length that [time.sleep] sleeps: in range, not negative, and not
    refused by the operating system. *)
Definition sleep_accepted (env : environment) (secs : Q) : bool :=
  sleep_ns_in_range secs && Qle_bool 0 secs && os_sleep env secs.

(** A data error: the KeyError that [main] raises for a question missing
    from the replay index. *)
Definition is_data_error (e : exn) : bool :=
  match e with KeyError _ => true | _ => false end.

Definition not_data_error (e : exn) : bool := negb (is_data_error e).

(** [raises P m]: every exception that [m] ends with satisfies [P]. *)
Definition raises {A} (P : exn -> bool) (m : M A) : Prop :=
  forall w e w', m w = (Raised e, w') -> P e = true.

(** The effects of [k] failed attempts, each followed by its backoff. *)
Definition failed_attempts (c : Client) (model prompt : str) (temperature : Q)
    (retry_wait : Q) (first k : nat) : list event :=
  flat_map (fun n => [EvRequest c model prompt temperature; EvSleep (backoff retry_wait n)])
           (seq first k).

(** The effects of [save_results]. *)
Definition save_events (results : list ResultEntry) (output_dir : path)
    (metadata : Metadata) (save_markdown : bool) : list event :=
  let run_folder := PathDiv output_dir (meta_run_id metadata) in
  [EvMkdir output_dir; EvMkdir run_folder;
   EvWriteText (PathDiv run_folder (py "results.json")) (JsonPayload metadata results)]
  ++ (if save_markdown
      then [EvWriteText (PathDiv run_folder (py "results.md"))
              (MarkdownTable results metadata)]
      else []).

(** ** Example inputs *)

Definition example_client : Client :=
  {| client_api_key := py "sk-test"; client_base_url := None |}.

(** Fixtures: [questions.json] holds one scored question, [unscored.json]
    one question whose ground truth is a lone question mark, [two.json] the
    scored question and an unscored one, any other file no question;
    [replay.json] records the answers of the scored question,
    [repeated.json] holds three records, two of them for the scored
    question, any other replay fixture is the object [{}] without a
    [records] key. *)
Definition example_questions_json (path : str) : list question_item :=
  if bool_decide (path = py "questions.json") then
    [ {| item_prompt := py "2+2是多少？";
         item_ground_truth := Some (py "4");
         item_rationale := None |} ]
  else if bool_decide (path = py "unscored.json") then
    [ {| item_prompt := py "你好吗";
         item_ground_truth := Some (py "?");
         item_rationale := None |} ]
  else if bool_decide (path = py "two.json") then
    [ {| item_prompt := py "2+2是多少？";
         item_ground_truth := Some (py "4");
         item_rationale := None |};
      {| item_prompt := py "你好吗";
         item_ground_truth := None;
         item_rationale := None |} ]
  else [].

Definition example_replay_json (path : str) : replay_document :=
  if bool_decide (path = py "replay.json") then
    {| doc_records :=
         Some [ {| rec_question := py "2+2是多少？";
                   rec_zero_shot_answer := py "4";
                   rec_cot_answer := py "2+2=4" |} ] |}
  else if bool_decide (path = py "repeated.json") then
    {| doc_records :=
         Some [ {| rec_question := py "2+2是多少？";
                   rec_zero_shot_answer := py "5";
                   rec_cot_answer := py "2+2=5" |};
                {| rec_question := py "你好吗";
                   rec_zero_shot_answer := py "好";
                   rec_cot_answer := py "很好" |};
                {| rec_question := py "2+2是多少？";
                   rec_zero_shot_answer := py "4";
                   rec_cot_answer := py "2+2=4" |} ] |}
  else {| doc_records := None |}.

(** An environment with or without a credential, whose service either
    answers every request or fails every request, and whose operating
    system sleeps any length that the runtime accepts. *)
Definition example_env (api_key : option str) (answering : bool) : environment :=
  {| OPENAI_API_KEY := api_key;
     openai_installed := true;
     questions_json := example_questions_json;
     replay_json := example_replay_json;
     service := fun _ _ _ _ =>
                  if answering then inr (py "答案是4") else inl (py "timeout");
     os_sleep := fun _ => true;
     clock_stamp := py "20260101-000000";
     clock_isoformat := py "2026-01-01T00:00:00" |}.

(** The default options of [parse_args], with tag [t1], two retries and a
    base delay of one second. *)
Definition example_args (questions_file replay_file : option str) (dry_run : bool)
    : Namespace :=
  {| model := py "gpt-4o-mini";
     temperature := 1 # 10;
     cot_suffix := py "让我们一步一步地思考。";
     zero_shot_suffix := py "请直接给出最终答案。";
     max_retries := 2;
     retry_wait := 1;
     pause := 1;
     output_dir := py "outputs";
     questions_file := questions_file;
     base_url := None;
     replay_file := replay_file;
     dry_run := dry_run;
     save_markdown := false;
     tag := Some (py "t1") |}.

(** ** Report: accuracy summary ([src/generate_report.py])

    <<
    def summarize_accuracy(records):
        zero = [rec.get("zero_shot_correct") for rec in records]
        cot = [rec.get("cot_correct") for rec in records]
        zero_hits = sum(1 for flag in zero if flag)
        cot_hits = sum(1 for flag in cot if flag)
        total = len(records)
        return {"zero_hits": zero_hits, "cot_hits": cot_hits,
                "zero_acc": zero_hits / total if total else 0.0,
                "cot_acc": cot_hits / total if total else 0.0,
                "total": total}
    >> *)
Record AccuracySummary := {
  zero_hits : nat;
  cot_hits : nat;
  zero_acc : Q;
  cot_acc : Q;
  total : nat;
}.

(** Truthiness of a correctness flag: only [True] is truthy. *)
Definition flag_truthy (flag : option bool) : bool :=
  match flag with
  | Some true => true
  | _ => false
  end.

Definition hits (flags : list (option bool)) : nat :=
  length (List.filter flag_truthy flags).

(** [hits / total if total else 0.0] *)
Definition accuracy (hits total : nat) : Q :=
  match total with
  | O => 0%Q
  | S _ => (inject_Z (Z.of_nat hits) / inject_Z (Z.of_nat total))%Q
  end.

Definition summarize_accuracy (records : list ResultEntry) : AccuracySummary :=
  let zero := map entry_zero_shot_correct records in
  let cot := map entry_cot_correct records in
  let zero_hits := hits zero in
  let cot_hits := hits cot in
  let total := length records in
  {| zero_hits := zero_hits;
     cot_hits := cot_hits;
     zero_acc := accuracy zero_hits total;
     cot_acc := accuracy cot_hits total;
     total := total |}.

(** ** Markdown export

    <<
    def format_markdown(results, metadata):
        lines = ["# Zero-Shot vs Zero-Shot-CoT", "", "## 元信息", ""]
        for key, value in metadata.items():
            lines.append(f"- **{key}**: {value}")
        lines.extend(["", "## 结果对比", ""])
        header = "| 序号 | 问题 | Zero-Shot 摘要 | CoT 摘要 | Zero-Shot 正确 | CoT 正确 |"
        lines.append(header)
        lines.append("| --- | --- | --- | --- | --- | --- |")
        for idx, item in enumerate(results, start=1):
            zero = item["zero_shot_answer"].replace("\n", "<br>")
            cot = item["cot_answer"].replace("\n", "<br>")
            zero_ok = item.get("zero_shot_correct")
            cot_ok = item.get("cot_correct")
            lines.append(
                f"| {idx} | {item['question']} | {zero} | {cot} | {zero_ok} | {cot_ok} |")
        return "\n".join(lines)
    >>
    This is the text that [MarkdownTable results metadata] stands for. How
    the runtime prints a float ([str(float)]) is a parameter. *)

(** [str(n)] for a non-negative int. *)
Fixpoint decimal_digits (d : Decimal.uint) : str :=
  match d with
  | Decimal.Nil => []
  | Decimal.D0 d => 0x30 :: decimal_digits d
  | Decimal.D1 d => 0x31 :: decimal_digits d
  | Decimal.D2 d => 0x32 :: decimal_digits d
  | Decimal.D3 d => 0x33 :: decimal_digits d
  | Decimal.D4 d => 0x34 :: decimal_digits d
  | Decimal.D5 d => 0x35 :: decimal_digits d
  | Decimal.D6 d => 0x36 :: decimal_digits d
  | Decimal.D7 d => 0x37 :: decimal_digits d
  | Decimal.D8 d => 0x38 :: decimal_digits d
  | Decimal.D9 d => 0x39 :: decimal_digits d
  end.

Definition str_of_nat (n : nat) : str := decimal_digits (Nat.to_uint n).

(** [str(flag)] for an [Optional[bool]]. *)
Definition str_of_flag (flag : option bool) : str :=
  match flag with
  | None => py "None"
  | Some true => py "True"
  | Some false => py "False"
  end.

(** [s.replace("\n", "<br>")] *)
Definition replace_newlines (s : str) : str :=
  flat_map (fun ch => if ch =? 0x0A then py "<br>" else [ch]) s.

(** [sep.join(lines)] *)
Fixpoint join (sep : str) (lines : list str) : str :=
  match lines with
  | [] => []
  | [line] => line
  | line :: rest => line ++ sep ++ join sep rest
  end.

Section Markdown.
Variable float_str : Q -> str.

(** [metadata.items()], in insertion order, each value as the f-string
    prints it. *)
Definition metadata_items (metadata : Metadata) : list (str * str) :=
  [ (py "run_id", meta_run_id metadata);
    (py "model", meta_model metadata);
    (py "temperature", float_str (meta_temperature metadata));
    (py "cot_suffix", meta_cot_suffix metadata);
    (py "zero_shot_suffix", meta_zero_shot_suffix metadata);
    (py "question_count", str_of_nat (meta_question_count metadata));
    (py "timestamp", meta_timestamp metadata) ]
  ++ match meta_replay_file metadata with
     | Some file => [(py "replay_file", file)]
     | None => []
     end.

Definition metadata_line (item : str * str) : str :=
  py "- **" ++ fst item ++ py "**: " ++ snd item.

Definition markdown_row (idx : nat) (item : ResultEntry) : str :=
  let zero := replace_newlines (entry_zero_shot_answer item) in
  let cot := replace_newlines (entry_cot_answer item) in
  let zero_ok := entry_zero_shot_correct item in
  let cot_ok := entry_cot_correct item in
  py "| " ++ str_of_nat idx ++ py " | " ++ entry_question item ++ py " | " ++ zero
    ++ py " | " ++ cot ++ py " | " ++ str_of_flag zero_ok ++ py " | "
    ++ str_of_flag cot_ok ++ py " |".

(** The rows for [enumerate(results, start=idx)]. *)
Fixpoint markdown_rows (idx : nat) (results : list ResultEntry) : list str :=
  match results with
  | [] => []
  | item :: rest => markdown_row idx item :: markdown_rows (S idx) rest
  end.

Definition format_markdown (results : list ResultEntry) (metadata : Metadata) : str :=
  let lines :=
    [py "# Zero-Shot vs Zero-Shot-CoT"; []; py "## 元信息"; []]
    ++ map metadata_line (metadata_items metadata)
    ++ [[]; py "## 结果对比"; []]
    ++ [py "| 序号 | 问题 | Zero-Shot 摘要 | CoT 摘要 | Zero-Shot 正确 | CoT 正确 |"]
    ++ [py "| --- | --- | --- | --- | --- | --- |"]
    ++ markdown_rows 1 results in
  join [0x0A] lines.

End Markdown.

(** Number of newline code points in a text. *)
Definition count_newlines (s : str) : nat :=
  length (List.filter (fun ch => ch =? 0x0A) s).

Definition sum_nat (l : list nat) : nat := fold_right Nat.add 0%nat l.

(** ** Further vocabulary for statements *)

(** The result entry that lines 327-337 of [main] build from the two
    answers of a question. *)
Definition entry_with_answers {U : UnicodeData} (args : Namespace)
    (question : QuestionSpec) (zero_answer cot_answer : str) : ResultEntry :=
  {| entry_question := prompt question;
     entry_rationale := rationale question;
     entry_ground_truth := ground_truth question;
     entry_zero_shot_prompt := build_prompt (prompt question) (zero_shot_suffix args);
     entry_cot_prompt := build_prompt (prompt question) (cot_suffix args);
     entry_zero_shot_answer := zero_answer;
     entry_cot_answer := cot_answer;
     entry_zero_shot_correct := is_answer_correct zero_answer (ground_truth question);
     entry_cot_correct := is_answer_correct cot_answer (ground_truth question) |}.

(** The entry of a question in a dry run. *)
Definition simulated_entry {U : UnicodeData} (args : Namespace)
    (question : QuestionSpec) : ResultEntry :=
  entry_with_answers args question
    (simulate_answer question (py "zero")) (simulate_answer question (py "cot")).

(** The same options with another value of the dry-run flag. *)
Definition set_dry_run (flag : bool) (args : Namespace) : Namespace :=
  {| model := model args;
     temperature := temperature args;
     cot_suffix := cot_suffix args;
     zero_shot_suffix := zero_shot_suffix args;
     max_retries := max_retries args;
     retry_wait := retry_wait args;
     pause := pause args;
     output_dir := output_dir args;
     questions_file := questions_file args;
     base_url := base_url args;
     replay_file := replay_file args;
     dry_run := flag;
     save_markdown := save_markdown args;
     tag := tag args |}.




(** [costs k m]: [m] sends at most [k] requests to the service. *)
Definition costs {A} (k : nat) (m : M A) : Prop :=
  forall w, (requests (snd (m w)) <= requests w + k)%nat.

(** Sum of a list of delays. *)
Definition total_delay (ds : list Q) : Q := fold_right Qplus 0%Q ds.

(** ** Facts about strip *)

Section TextFacts.
Context {U : UnicodeData}.

Lemma lstrip_head (s : str) a r : lstrip s = a :: r -> isspace a = false.
Proof.
  induction s as [|c s IH]; simpl; [discriminate|].
  destruct (isspace c) eqn:E; [exact IH|].
  intros [= <- _]. exact E.
Qed.

Lemma lstrip_nonspace a (r : str) : isspace a = false -> lstrip (a :: r) = a :: r.
Proof. intros E. simpl. now rewrite E. Qed.

Lemma lstrip_idem (s : str) : lstrip (lstrip s) = lstrip s.
Proof.
  destruct (lstrip s) as [|a r] eqn:E; [reflexivity|].
  apply lstrip_nonspace. eapply lstrip_head, E.
Qed.

Lemma lstrip_app_nonspace (x : str) a r :
  isspace a = false -> lstrip (x ++ a :: r) = lstrip x ++ a :: r.
Proof.
  intros E. induction x as [|c x IH]; simpl.
  - now rewrite E.
  - destruct (isspace c); [exact IH | reflexivity].
Qed.

Lemma rstrip_nil : rstrip [] = [].
Proof. reflexivity. Qed.

Lemma rstrip_snoc_nonspace (x : str) b :
  isspace b = false -> rstrip (x ++ [b]) = x ++ [b].
Proof.
  intros E. unfold rstrip. rewrite rev_app_distr. simpl.
  rewrite E. simpl. now rewrite rev_involutive.
Qed.

Lemma rstrip_cons_nonspace a (r : str) :
  isspace a = false -> rstrip (a :: r) = a :: rstrip r.
Proof.
  intros E. unfold rstrip. simpl.
  rewrite (lstrip_app_nonspace (rev r) a [] E).
  rewrite rev_app_distr. reflexivity.
Qed.

Lemma rstrip_idem (s : str) : rstrip (rstrip s) = rstrip s.
Proof. unfold rstrip. now rewrite rev_involutive, lstrip_idem. Qed.

Lemma stripped_head (t : str) a r :
  stripped t -> t = a :: r -> isspace a = false.
Proof. intros [Hl _] ->. eapply lstrip_head, Hl. Qed.

Lemma stripped_last (t : str) :
  stripped t -> t <> [] -> exists m b, t = m ++ [b] /\ isspace b = false.
Proof.
  intros [_ Hr] Hne. unfold rstrip in Hr.
  apply (f_equal (@rev N)) in Hr. rewrite rev_involutive in Hr.
  destruct (rev t) as [|b m] eqn:E.
  - apply (f_equal (@rev N)) in E. rewrite rev_involutive in E. now destruct Hne.
  - exists (rev m), b. split.
    + apply (f_equal (@rev N)) in E. now rewrite rev_involutive in E.
    + eapply lstrip_head, Hr.
Qed.

Lemma strip_stripped (s : str) : stripped (strip s).
Proof.
  unfold stripped, strip. split; [|apply rstrip_idem].
  destruct (lstrip s) as [|a r] eqn:E; [reflexivity|].
  pose proof (lstrip_head _ _ _ E) as Ha.
  rewrite (rstrip_cons_nonspace _ _ Ha). now apply lstrip_nonspace.
Qed.

Lemma strip_fixed (t : str) : stripped t -> strip t = t.
Proof. intros [Hl Hr]. unfold strip. now rewrite Hl. Qed.

Lemma strip_idem (s : str) : strip (strip s) = strip s.
Proof. apply strip_fixed, strip_stripped. Qed.

(** Stripping a text that ends with a non-empty stripped text only touches
    what comes before it. *)
Lemma strip_app_stripped (x t : str) :
  stripped t -> t <> [] -> strip (x ++ t) = lstrip x ++ t.
Proof.
  intros Ht Hne. unfold strip.
  destruct t as [|a r] eqn:Et; [now destruct Hne|].
  rewrite (lstrip_app_nonspace x a r (stripped_head _ _ _ Ht eq_refl)).
  rewrite <- Et in *. destruct (stripped_last t Ht) as (m & b & -> & Hb).
  { now rewrite Et. }
  rewrite app_assoc. now apply rstrip_snoc_nonspace.
Qed.

Lemma endswith_true (s suffix : str) :
  endswith s suffix = true <-> exists k, s = k ++ suffix.
Proof. unfold endswith. rewrite bool_decide_eq_true. reflexivity. Qed.

Lemma is_empty_true (s : str) : is_empty s = true <-> s = [].
Proof. destruct s; simpl; split; congruence. Qed.

Lemma is_empty_false (s : str) : is_empty s = false <-> s <> [].
Proof. destruct s; simpl; split; congruence. Qed.

(** If the question as given ends with a stripped suffix, so does the
    stripped question. *)
Lemma endswith_strip (q t : str) :
  stripped t -> t <> [] -> endswith q t = true -> endswith (strip q) t = true.
Proof.
  intros Ht Hne [k ->]%endswith_true. apply endswith_true.
  exists (lstrip k). now apply strip_app_stripped.
Qed.

End TextFacts.

(** ** PromptBuilder: idempotence and case analysis *)

(** C7. build_prompt is idempotent in its first argument: for every question
    text q and suffix s, build_prompt(build_prompt(q, s), s) equals
    build_prompt(q, s), whatever the runtime's whitespace table is. *)
Theorem build_prompt_idempotent :
  forall (U : UnicodeData) (q s : str),
    build_prompt (build_prompt q s) s = build_prompt q s.
Proof.
  intros U q s. unfold build_prompt.
  pose proof (strip_stripped s) as Hs.
  destruct (is_empty (strip s)) eqn:Ee; cbn [negb andb].
  - apply strip_idem.
  - apply is_empty_false in Ee.
    destruct (endswith q (strip s)) eqn:Eq; cbn [negb andb].
    + rewrite (endswith_strip q (strip s) Hs Ee Eq). apply strip_idem.
    + assert (Hr : strip (strip q ++ [0x20] ++ strip s)
                   = lstrip (strip q ++ [0x20]) ++ strip s).
      { rewrite app_assoc. now apply strip_app_stripped. }
      assert (He : endswith (strip (strip q ++ [0x20] ++ strip s)) (strip s) = true).
      { apply endswith_true. eexists. exact Hr. }
      rewrite He. cbn [negb andb]. apply strip_idem.
Qed.

(** C5 (as amended). With U+0020 a whitespace code point: when the trimmed
    suffix is empty, or the question as given ends with the trimmed suffix,
    the result is the trimmed question; when the trimmed suffix is non-empty
    and the trimmed question does not end with it, the result is the trimmed
    question, one space and the trimmed suffix if the trimmed question is
    non-empty, and the trimmed suffix alone if it is empty. *)
Theorem build_prompt_cases :
  forall (U : UnicodeData) (Hsp : isspace 0x20 = true) (q s : str),
    (strip s = [] -> build_prompt q s = strip q)
    /\ (strip s <> [] -> endswith q (strip s) = true -> build_prompt q s = strip q)
    /\ (strip s <> [] -> endswith (strip q) (strip s) = false ->
        build_prompt q s
        = if is_empty (strip q) then strip s else strip q ++ [0x20] ++ strip s).
Proof.
  intros U Hsp q s. unfold build_prompt.
  pose proof (strip_stripped s) as Hs. pose proof (strip_stripped q) as Hq.
  split; [|split].
  - intros ->. reflexivity.
  - intros Hne%is_empty_false ->. now rewrite Hne.
  - intros Hne Hend.
    destruct (endswith q (strip s)) eqn:Eq.
    { rewrite (endswith_strip q (strip s) Hs Hne Eq) in Hend. discriminate. }
    apply is_empty_false in Hne as Hne'. rewrite Hne'. cbn [negb andb].
    rewrite app_assoc, (strip_app_stripped _ _ Hs Hne).
    destruct (strip q) as [|a r] eqn:E; simpl.
    + now rewrite Hsp.
    + now rewrite (stripped_head _ _ _ Hq eq_refl).
Qed.

(** The three cases at concrete inputs. *)
Lemma build_prompt_cases_witness :
  @build_prompt cpython_fragment (py "  ") (py " s ") = py "s"
  /\ @build_prompt cpython_fragment (py " Q s") (py "s") = py "Q s"
  /\ @build_prompt cpython_fragment (py "Q ") (py "s") = py "Q s".
Proof.
  pose proof (build_prompt_cases cpython_fragment eq_refl) as H.
  split; [|split].
  - destruct (H (py "  ") (py " s ")) as (_ & _ & H3).
    apply H3; [vm_compute; discriminate | vm_compute; reflexivity].
  - destruct (H (py " Q s") (py "s")) as (_ & H2 & _).
    apply H2; [vm_compute; discriminate | vm_compute; reflexivity].
  - destruct (H (py "Q ") (py "s")) as (_ & _ & H3).
    apply H3; [vm_compute; discriminate | vm_compute; reflexivity].
Defined.

(** C5 (counterexample). The builder differs from the specified one on an
    empty question (the result is the suffix alone, without the space) and
    on a question that ends with the suffix followed by whitespace (the
    suffix is appended a second time). *)
Lemma build_prompt_not_as_specified :
  @build_prompt cpython_fragment (py "") (py "s") = py "s"
  /\ @build_prompt_as_specified cpython_fragment (py "") (py "s") = py " s"
  /\ @build_prompt cpython_fragment (py "Q s ") (py "s") = py "Q s s"
  /\ @build_prompt_as_specified cpython_fragment (py "Q s ") (py "s") = py "Q s".
Proof. vm_compute. repeat split. Qed.

(** ** Evaluator: normalization *)

Section NormalizeFacts.
Context {U : UnicodeData}.

Lemma normalize_text_app (a b : str) :
  normalize_text (a ++ b) = normalize_text a ++ normalize_text b.
Proof. unfold normalize_text. apply flat_map_app. Qed.

Lemma normalize_text_filter (x : str) :
  normalize_text x = concat (map lower (List.filter isalnum x)).
Proof.
  induction x as [|c x IH]; [reflexivity|].
  cbn [normalize_text flat_map List.filter].
  fold (normalize_text x). rewrite IH.
  destruct (isalnum c); reflexivity.
Qed.

(** Lower-cased output of a stable code point is a fixed point. *)
Lemma normalize_text_fixed (l : str) :
  forallb (fun d => isalnum d && bool_decide (lower d = [d])) l = true ->
  normalize_text l = l.
Proof.
  induction l as [|d l IH]; [reflexivity|].
  cbn [forallb]. intros [[Hd Hl%bool_decide_eq_true]%andb_prop Hrest]%andb_prop.
  cbn [normalize_text flat_map]. fold (normalize_text l).
  rewrite Hd, Hl, (IH Hrest). reflexivity.
Qed.

Lemma normalize_text_stable (x : str) :
  forallb lower_stable x = true ->
  normalize_text (normalize_text x) = normalize_text x.
Proof.
  induction x as [|c x IH]; [reflexivity|].
  cbn [forallb]. intros [Hc Hx]%andb_prop.
  change (c :: x) with ([c] ++ x).
  rewrite !normalize_text_app, (IH Hx). f_equal.
  unfold lower_stable in Hc. cbn [normalize_text flat_map].
  destruct (isalnum c); cbn [negb orb] in Hc; [|reflexivity].
  rewrite app_nil_r. now apply normalize_text_fixed.
Qed.

End NormalizeFacts.

Lemma N_range_forallb (f : N -> bool) (lo : N) (len : nat) :
  forallb f (map (fun i => lo + N.of_nat i) (seq 0 len)) = true ->
  forall c, lo <= c < lo + N.of_nat len -> f c = true.
Proof.
  intros H c Hc. rewrite forallb_forall in H. apply H.
  apply in_map_iff. exists (N.to_nat (c - lo)). split; [lia|].
  apply in_seq. lia.
Qed.

(** On the tabulated fragment every code point other than U+0130 is
    stable. *)
Lemma cpython_fragment_stable (c : codepoint) :
  c <> 0x130 -> @lower_stable cpython_fragment c = true.
Proof.
  intros Hne.
  destruct (N.le_gt_cases 0x41 c) as [H1|H1], (N.le_gt_cases c 0x5A) as [H2|H2];
    try (apply (N_range_forallb (@lower_stable cpython_fragment) 0x41 26);
         [vm_compute; reflexivity | lia]).
  all: destruct (N.le_gt_cases 0xC0 c) as [H3|H3], (N.le_gt_cases c 0xDE) as [H4|H4];
    try (apply (N_range_forallb (@lower_stable cpython_fragment) 0xC0 31);
         [vm_compute; reflexivity | lia]).
  all: assert (Hl : py_lower c = [c]).
  all: try (unfold py_lower, latin1_upper;
            repeat match goal with
              | |- context [?a <=? ?b] =>
                  first [ replace (a <=? b) with false
                            by (symmetry; apply N.leb_gt; lia)
                        | replace (a <=? b) with true
                            by (symmetry; apply N.leb_le; lia) ]
              end;
            cbn [andb negb];
            replace (c =? 0x130) with false by (symmetry; apply N.eqb_neq; exact Hne);
            reflexivity).
  all: unfold lower_stable; cbn [isalnum lower cpython_fragment];
    rewrite Hl; cbn [forallb]; rewrite Hl.
  all: destruct (py_isalnum c); cbn [negb orb andb]; [|reflexivity].
  all: rewrite bool_decide_eq_true_2; reflexivity.
Qed.

Lemma normalize_idempotent_without_U0130 (x : str) :
  ~ In 0x130 x ->
  @normalize_text cpython_fragment (@normalize_text cpython_fragment x)
  = @normalize_text cpython_fragment x.
Proof.
  intros Hx. apply normalize_text_stable, forallb_forall.
  intros c Hc. apply cpython_fragment_stable. intros ->. contradiction.
Qed.

(** C6 (as amended). normalize keeps the alphanumeric code points, replaces
    each by its lower-casing and concatenates the results with no separator;
    it is idempotent on every text whose alphanumeric code points lower-case
    to alphanumeric code points that lower-casing leaves unchanged. *)
Theorem normalize_idempotent_on_stable_text :
  forall (U : UnicodeData) (x : str),
    normalize_text x = concat (map lower (List.filter isalnum x))
    /\ (forallb lower_stable x = true ->
        normalize_text (normalize_text x) = normalize_text x).
Proof.
  intros U x. split.
  - apply normalize_text_filter.
  - apply normalize_text_stable.
Qed.

(** A stable text mixing ASCII, Latin-1 and CJK code points. *)
Lemma normalize_idempotent_on_stable_text_witness :
  @normalize_text cpython_fragment
     (@normalize_text cpython_fragment (py "Ab, 3 篮子 É!"))
  = @normalize_text cpython_fragment (py "Ab, 3 篮子 É!").
Proof.
  apply (proj2 (normalize_idempotent_on_stable_text cpython_fragment
                  (py "Ab, 3 篮子 É!"))).
  vm_compute. reflexivity.
Defined.

(** C6 (counterexample). U+0130 is alphanumeric and lower-cases to U+0069
    U+0307; U+0307 is a combining mark, which a second normalization drops. *)
Lemma normalize_not_idempotent :
  @normalize_text cpython_fragment [0x130] = [0x69; 0x307]
  /\ @normalize_text cpython_fragment (@normalize_text cpython_fragment [0x130]) = [0x69]
  /\ @normalize_text cpython_fragment (@normalize_text cpython_fragment [0x130])
     <> @normalize_text cpython_fragment [0x130].
Proof. vm_compute. repeat split. discriminate. Qed.

(** ** Evaluator: scoring *)

Section ScoreFacts.
Context {U : UnicodeData}.

Lemma startswith_spec (s prefix : str) :
  startswith s prefix = true <-> exists r, s = prefix ++ r.
Proof.
  revert s. induction prefix as [|p prefix IH]; intros s.
  - destruct s; simpl; split; eauto.
  - destruct s as [|c s]; simpl.
    + split; [discriminate | intros [r Hr]; discriminate].
    + rewrite andb_true_iff, N.eqb_eq, IH. split.
      * intros [-> [r ->]]. eauto.
      * intros [r [= -> ->]]. eauto.
Qed.

Lemma contains_spec (s sub : str) :
  contains s sub = true <-> exists l r, s = l ++ sub ++ r.
Proof.
  induction s as [|c s IH]; cbn [contains]; rewrite orb_true_iff, startswith_spec.
  - split.
    + intros [[r Hr] | Hf]; [exists [], r; exact Hr | discriminate].
    + intros (l & r & H). left. destruct l; [eauto | discriminate].
  - rewrite IH. split.
    + intros [[r Hr] | (l & r & ->)]; [exists [], r; exact Hr|].
      exists (c :: l), r. reflexivity.
    + intros (l & r & H). destruct l as [|a l]; [left; eauto|].
      right. injection H as _ ->. eauto.
Qed.

Lemma normalize_text_nil : normalize_text [] = [].
Proof. reflexivity. Qed.

End ScoreFacts.

(** C3. score returns unknown exactly when the ground truth is empty or
    normalizes to the empty text; otherwise it returns true exactly when the
    normalized ground truth is a contiguous substring of the normalized
    answer, and false exactly when it is not. score(answer, "") is unknown;
    score("篮子里最终有30个苹果", "30") is true; score("答案是20", "30") is
    false. *)
Theorem is_answer_correct_tristate :
  (forall (U : UnicodeData) (answer ground_truth : str),
      (is_answer_correct answer ground_truth = None
       <-> ground_truth = [] \/ normalize_text ground_truth = [])
      /\ (is_answer_correct answer ground_truth = Some true
          <-> ground_truth <> [] /\ normalize_text ground_truth <> []
              /\ exists l r, normalize_text answer = l ++ normalize_text ground_truth ++ r)
      /\ (is_answer_correct answer ground_truth = Some false
          <-> ground_truth <> [] /\ normalize_text ground_truth <> []
              /\ ~ exists l r, normalize_text answer = l ++ normalize_text ground_truth ++ r))
  /\ (forall (U : UnicodeData) (answer : str), is_answer_correct answer [] = None)
  /\ @is_answer_correct cpython_fragment (py "篮子里最终有30个苹果") (py "30") = Some true
  /\ @is_answer_correct cpython_fragment (py "答案是20") (py "30") = Some false.
Proof.
  split; [|split; [reflexivity | split; vm_compute; reflexivity]].
  intros U answer ground_truth. unfold is_answer_correct.
  destruct (is_empty ground_truth) eqn:Eg.
  { apply is_empty_true in Eg.
    split; [|split]; (split; [try discriminate; auto | ]).
    - reflexivity.
    - intros (H & _). contradiction.
    - intros (H & _). contradiction. }
  destruct (is_empty (normalize_text ground_truth)) eqn:En.
  { apply is_empty_true in En.
    split; [|split]; (split; [try discriminate; auto | ]).
    - reflexivity.
    - intros (_ & H & _). contradiction.
    - intros (_ & H & _). contradiction. }
  apply is_empty_false in Eg, En.
  pose proof (contains_spec (normalize_text answer) (normalize_text ground_truth)) as Hc.
  split; [|split].
  - split; [discriminate | intros [H | H]; contradiction].
  - split.
    + intros [= Ht]. apply Hc in Ht. auto.
    + intros (_ & _ & He). apply Hc in He. now rewrite He.
  - split.
    + intros [= Hf]. repeat split; auto. intros He%Hc. congruence.
    + intros (_ & _ & Hn).
      destruct (contains (normalize_text answer) (normalize_text ground_truth));
        [|reflexivity].
      exfalso. apply Hn, Hc. reflexivity.
Qed.

(** ** Sequencing *)

Lemma bind_returned {A B} (m : M A) (k : A -> M B) w a w1 :
  m w = (Returned a, w1) -> bind m k w = k a w1.
Proof. unfold bind. now intros ->. Qed.

Lemma bind_raised {A B} (m : M A) (k : A -> M B) w e w1 :
  m w = (Raised e, w1) -> bind m k w = (Raised e, w1).
Proof. unfold bind. now intros ->. Qed.

(** ** time.sleep *)

Lemma time_sleep_accepted (env : environment) (secs : Q) (w : world) :
  sleep_accepted env secs = true ->
  time_sleep env secs w
  = (Returned tt, {| requests := requests w; trace := trace w ++ [EvSleep secs] |}).
Proof.
  unfold sleep_accepted, time_sleep.
  intros [[-> ->]%andb_prop ->]%andb_prop. reflexivity.
Qed.

(** A sleep takes place or raises at once, with no effect. *)
Lemma time_sleep_cases (env : environment) (secs : Q) (w : world) :
  (sleep_accepted env secs = true
   /\ time_sleep env secs w
      = (Returned tt, {| requests := requests w; trace := trace w ++ [EvSleep secs] |}))
  \/ (sleep_accepted env secs = false
      /\ exists e, time_sleep env secs w = (Raised e, w) /\ is_data_error e = false).
Proof.
  unfold sleep_accepted, time_sleep.
  destruct (sleep_ns_in_range secs); cbn [negb andb]; [|right; eauto].
  destruct (Qle_bool 0 secs); cbn [negb andb]; [|right; eauto].
  destruct (os_sleep env secs); cbn [negb andb]; [left; auto | right; eauto].
Qed.

(** ** RetryingExecutor *)

Lemma float_of_power_of_two (n : nat) :
  (n < 1024)%nat -> float_of_int_overflows (2 ^ Z.of_nat n) = false.
Proof.
  intros Hn. unfold float_of_int_overflows. apply Z.leb_gt.
  apply Z.pow_lt_mono_r; lia.
Qed.

Lemma failed_attempts_succ c model prompt temperature retry_wait first k :
  failed_attempts c model prompt temperature retry_wait first (S k)
  = [EvRequest c model prompt temperature; EvSleep (backoff retry_wait first)]
    ++ failed_attempts c model prompt temperature retry_wait (S first) k.
Proof. reflexivity. Qed.

Lemma attempts_app (a b : list event) : attempts (a ++ b) = (attempts a + attempts b)%nat.
Proof. unfold attempts. now rewrite List.filter_app, length_app. Qed.

Lemma delays_app (a b : list event) : delays (a ++ b) = delays a ++ delays b.
Proof. apply flat_map_app. Qed.

Lemma attempts_failed_attempts c model prompt temperature retry_wait first k :
  attempts (failed_attempts c model prompt temperature retry_wait first k) = k.
Proof.
  revert first. induction k as [|k IH]; intros first; [reflexivity|].
  rewrite failed_attempts_succ, attempts_app, IH. reflexivity.
Qed.

Lemma delays_failed_attempts c model prompt temperature retry_wait first k :
  delays (failed_attempts c model prompt temperature retry_wait first k)
  = map (backoff retry_wait) (seq first k).
Proof.
  revert first. induction k as [|k IH]; intros first; [reflexivity|].
  rewrite failed_attempts_succ, delays_app, IH. reflexivity.
Qed.

Section RetryFacts.
Variable env : environment.
Variable c : Client.
Variables model prompt : str.
Variable temperature : Q.
Variable max_retries : nat.
Variable retry_wait : Q.
Hypothesis max_retries_bound : (max_retries <= 1024)%nat.
Hypothesis backoffs_accepted :
  forall i, (i < max_retries)%nat -> sleep_accepted env (backoff retry_wait i) = true.

Let request : event := EvRequest c model prompt temperature.

(** The loop after [k] failed attempts followed by a last attempt that
    either succeeds or is attempt number [max_retries]. *)
Lemma retry_loop_run (k : nat) :
  forall (first fuel : nat) (last_error : option api_error) (w : world)
         (final : api_error + str),
    (first + k <= max_retries)%nat ->
    (k < fuel)%nat ->
    (forall i, (i < k)%nat ->
       exists exc, service env (requests w + i) model prompt temperature = inl exc) ->
    service env (requests w + k) model prompt temperature = final ->
    (forall exc, final = inl exc -> (first + k)%nat = max_retries) ->
    retry_loop env (Some c) model prompt temperature (Z.of_nat max_retries)
      retry_wait fuel (Z.of_nat first) last_error w
    = (Returned match final with
                | inr content => inl content
                | inl exc => inr (Some exc)
                end,
       {| requests := requests w + k + 1;
          trace := trace w
                   ++ failed_attempts c model prompt temperature retry_wait first k
                   ++ [request] |}).
Proof.
  induction k as [|k IH]; intros first fuel last_error w final Hle Hfuel Hfail Hfinal Hlast.
  - destruct fuel as [|fuel]; [lia|]. cbn [retry_loop].
    replace (Z.of_nat first <=? Z.of_nat max_retries)%Z with true
      by (symmetry; apply Z.leb_le; lia).
    unfold chat_completions_create.
    rewrite Nat.add_0_r in Hfinal. rewrite Hfinal.
    replace (requests w + 0 + 1)%nat with (S (requests w)) by lia.
    destruct final as [exc|content]; [|reflexivity].
    specialize (Hlast exc eq_refl).
    replace (Z.of_nat first =? Z.of_nat max_retries)%Z with true
      by (symmetry; apply Z.eqb_eq; lia).
    reflexivity.
  - destruct fuel as [|fuel]; [lia|]. cbn [retry_loop].
    replace (Z.of_nat first <=? Z.of_nat max_retries)%Z with true
      by (symmetry; apply Z.leb_le; lia).
    unfold chat_completions_create.
    destruct (Hfail 0%nat ltac:(lia)) as [exc Hexc].
    rewrite Nat.add_0_r in Hexc. rewrite Hexc.
    replace (Z.of_nat first =? Z.of_nat max_retries)%Z with false
      by (symmetry; apply Z.eqb_neq; lia).
    rewrite (float_of_power_of_two first) by lia.
    fold (backoff retry_wait first).
    rewrite (bind_returned _ _ _ _ _
               (time_sleep_accepted env (backoff retry_wait first) _
                  (backoffs_accepted first ltac:(lia)))).
    cbn [requests trace].
    replace (Z.of_nat first + 1)%Z with (Z.of_nat (S first)) by lia.
    rewrite (IH (S first) fuel (Some exc) _ final); cbn [requests trace];
      try lia.
    + f_equal. f_equal; [lia|].
      rewrite failed_attempts_succ, <- !app_assoc. reflexivity.
    + intros i Hi. destruct (Hfail (S i) ltac:(lia)) as [exc' He].
      exists exc'. rewrite <- He. f_equal. lia.
    + rewrite <- Hfinal. f_equal. lia.
    + intros exc' He. specialize (Hlast exc' He). lia.
Qed.

End RetryFacts.

(** C2 (as amended). For 0 <= max_retries <= 1024 and a base delay
    retry_wait whose delays retry_wait * 2^n, n = 0 .. max_retries-1, are
    all lengths that time.sleep sleeps (not negative, below 2^63
    nanoseconds, not refused by the operating system): if the wrapped call
    fails on every attempt, exactly max_retries + 1 attempts are made, the
    delay slept after failed attempt n (before attempt n+1) is
    retry_wait * 2^n for n = 0 .. max_retries-1, and a terminal failure
    wrapping the last error is raised; if attempt k is the first to succeed,
    its answer is returned after k failed attempts and their delays, with
    no further attempt or wait. *)
Theorem run_chat_completion_backoff :
  forall (env : environment) (c : Client) (model prompt : str) (temperature : Q)
         (max_retries : Z) (retry_wait : Q) (w : world),
    (0 <= max_retries <= 1024)%Z ->
    (forall i, (i < Z.to_nat max_retries)%nat ->
       sleep_accepted env (backoff retry_wait i) = true) ->
    let n := Z.to_nat max_retries in
    let run := run_chat_completion env (Some c) model prompt temperature
                 max_retries retry_wait w in
    let request := EvRequest c model prompt temperature in
    ((forall i, (i <= n)%nat ->
        exists exc, service env (requests w + i) model prompt temperature = inl exc) ->
     exists exc evs,
       service env (requests w + n) model prompt temperature = inl exc
       /\ fst run = Raised (RuntimeError (ApiCallFailed (Some exc)))
       /\ trace (snd run) = trace w ++ evs
       /\ evs = failed_attempts c model prompt temperature retry_wait 0 n ++ [request]
       /\ attempts evs = S n
       /\ delays evs = map (backoff retry_wait) (seq 0 n))
    /\ (forall (k : nat) (content : str),
           (k <= n)%nat ->
           (forall i, (i < k)%nat ->
              exists exc, service env (requests w + i) model prompt temperature = inl exc) ->
           service env (requests w + k) model prompt temperature = inr content ->
           fst run = Returned content
           /\ requests (snd run) = (requests w + k + 1)%nat
           /\ trace (snd run)
              = trace w ++ failed_attempts c model prompt temperature retry_wait 0 k
                  ++ [request]).
Proof.
  intros env c model prompt temperature max_retries retry_wait w Hmax Hwait n run request.
  assert (Hn : Z.of_nat n = max_retries) by (apply Z2Nat.id; lia).
  assert (Hfuel : Z.to_nat (max_retries + 1) = S n) by (subst n; lia).
  assert (Hbound : (n <= 1024)%nat) by (subst n; lia).
  split.
  - intros Hfail. destruct (Hfail n (Nat.le_refl n)) as [exc Hexc].
    exists exc, (failed_attempts c model prompt temperature retry_wait 0 n ++ [request]).
    pose proof (retry_loop_run env c model prompt temperature n retry_wait Hbound Hwait
                  n 0 (S n) None w (inl exc)) as Hrun.
    change (Z.of_nat 0) with 0%Z in Hrun. rewrite Hn in Hrun.
    subst run. unfold run_chat_completion, bind. rewrite Hfuel, Hrun; try lia; auto.
    + cbn [fst snd trace]. repeat split; auto.
      * rewrite attempts_app, attempts_failed_attempts. cbn. lia.
      * rewrite delays_app, delays_failed_attempts. cbn. apply app_nil_r.
    + intros i Hi. apply Hfail. lia.
  - intros k content Hk Hfail Hok.
    pose proof (retry_loop_run env c model prompt temperature n retry_wait Hbound Hwait
                  k 0 (S n) None w (inr content)) as Hrun.
    change (Z.of_nat 0) with 0%Z in Hrun. rewrite Hn in Hrun.
    subst run. unfold run_chat_completion, bind. rewrite Hfuel, Hrun; try lia; auto.
    discriminate.
Qed.

(** max_retries = 2, retry_wait = 1, a call that always fails: three
    attempts, delays [1; 2], terminal failure. *)
Lemma run_chat_completion_backoff_witness :
  let run := run_chat_completion (example_env None false) (Some example_client)
               (py "gpt-4o-mini") (py "2+2是多少？") (1 # 10) 2 1 initial_world in
  fst run = Raised (RuntimeError (ApiCallFailed (Some (py "timeout"))))
  /\ attempts (trace (snd run)) = 3%nat
  /\ delays (trace (snd run)) = [1%Q; 2%Q].
Proof.
  intros run.
  destruct (run_chat_completion_backoff (example_env None false) example_client
              (py "gpt-4o-mini") (py "2+2是多少？") (1 # 10) 2 1 initial_world)
    as [Hall _].
  - lia.
  - intros [|[|i]] Hi; [reflexivity | reflexivity | simpl in Hi; lia].
  - destruct Hall as (exc & evs & Hexc & Hres & Htrace & _ & Hatt & Hdel).
    + intros i _. eexists. reflexivity.
    + fold run in Hres, Htrace. injection Hexc as <-.
      cbn [trace initial_world app] in Htrace. rewrite Htrace.
      split; [exact Hres | split; [exact Hatt | exact Hdel]].
Defined.

(** C2 (counterexample). With max_retries = 1 and retry_wait = -1 and a call
    that always fails, the first backoff is negative: time.sleep raises
    ValueError after a single attempt, and no terminal failure wrapping the
    last error is raised. *)
Lemma run_chat_completion_negative_wait :
  let run := run_chat_completion (example_env None false) (Some example_client)
               (py "gpt-4o-mini") (py "2+2是多少？") (1 # 10) 1 (-1) initial_world in
  fst run = Raised ValueError
  /\ attempts (trace (snd run)) = 1%nat
  /\ delays (trace (snd run)) = [].
Proof. vm_compute. repeat split. Qed.

(** With retry_wait = 3 and max_retries = 40 and a call that always fails,
    the delay 3 * 2^32 seconds is beyond the range of time.sleep: after 33
    attempts and 32 delays OverflowError is raised. *)
Lemma run_chat_completion_overlong_wait :
  let run := run_chat_completion (example_env None false) (Some example_client)
               (py "gpt-4o-mini") (py "2+2是多少？") (1 # 10) 40 3 initial_world in
  fst run = Raised OverflowError
  /\ attempts (trace (snd run)) = 33%nat
  /\ delays (trace (snd run)) = map (backoff 3) (seq 0 32).
Proof. vm_compute. repeat split. Qed.

(** With retry_wait = 0 and max_retries = 1025 and a call that always
    fails, 2**1024 cannot be converted to a float: after 1025 attempts and
    1024 delays OverflowError is raised in place of the terminal failure. *)
Lemma run_chat_completion_overlarge_power :
  let run := run_chat_completion (example_env None false) (Some example_client)
               (py "gpt-4o-mini") (py "2+2是多少？") (1 # 10) 1025 0 initial_world in
  fst run = Raised OverflowError
  /\ attempts (trace (snd run)) = 1025%nat
  /\ length (delays (trace (snd run))) = 1024%nat.
Proof. vm_compute. repeat split. Qed.

(** ** Effects of the orchestration *)

Section EmitsFacts.
Context {A B : Type}.
Variable P : event -> bool.

Lemma emits_ret (a : A) : emits P (ret a).
Proof. intros w. split; [discriminate|]. exists []. now rewrite app_nil_r. Qed.

Lemma emits_raise (e : exn) : emits P (@raise A e).
Proof. intros w. split; [discriminate|]. exists []. now rewrite app_nil_r. Qed.

Lemma emits_bind (m : M A) (k : A -> M B) :
  emits P m -> (forall a, emits P (k a)) -> emits P (bind m k).
Proof.
  intros Hm Hk w. unfold bind.
  destruct (Hm w) as (Hfuel & evs & Htr & Hevs).
  destruct (m w) as [[a|e|] w1]; cbn [fst snd] in *.
  - destruct (Hk a w1) as (Hfuel' & evs' & Htr' & Hevs').
    split; [exact Hfuel'|]. exists (evs ++ evs').
    rewrite Htr', Htr, app_assoc, forallb_app, Hevs, Hevs'. auto.
  - split; [discriminate|]. eauto.
  - contradiction.
Qed.

End EmitsFacts.

Lemma emits_emit (P : event -> bool) (e : event) : P e = true -> emits P (emit e).
Proof.
  intros He w. split; [discriminate|]. exists [e]. cbn. now rewrite He.
Qed.

Lemma emits_weaken {A} (P Q : event -> bool) (m : M A) :
  (forall e, P e = true -> Q e = true) -> emits P m -> emits Q m.
Proof.
  intros HPQ Hm w. destruct (Hm w) as (Hfuel & evs & Htr & Hevs).
  split; [exact Hfuel|]. exists evs. split; [exact Htr|].
  rewrite forallb_forall in *. auto.
Qed.

Lemma emits_time_sleep (P : event -> bool) (env : environment) (secs : Q) :
  P (EvSleep secs) = true -> emits P (time_sleep env secs).
Proof.
  intros HP. unfold time_sleep.
  destruct (sleep_ns_in_range secs); cbn [negb]; [|apply emits_raise].
  destruct (Qle_bool 0 secs); cbn [negb]; [|apply emits_raise].
  destruct (os_sleep env secs); cbn [negb]; [now apply emits_emit | apply emits_raise].
Qed.

Lemma provider_events_sleep pv secs : provider_events pv (EvSleep secs) = true.
Proof. reflexivity. Qed.

Lemma provider_events_not_persistence pv e :
  provider_events pv e = true -> negb (is_persistence e) = true.
Proof. destruct e; simpl; auto; discriminate. Qed.

Lemma provider_events_not_request pv e :
  pv <> Live -> provider_events pv e = true ->
  negb (is_request e) && negb (is_client e) && negb (is_persistence e) = true.
Proof. destruct e, pv; simpl; auto; try discriminate; congruence. Qed.

(** The retry loop has enough fuel, and only requests and sleeps. *)
Lemma emits_retry_loop env client model prompt temperature max_retries wait :
  forall (fuel : nat) (attempt : Z) (last_error : option api_error),
    (max_retries - attempt < Z.of_nat fuel)%Z ->
    emits (provider_events Live)
      (retry_loop env client model prompt temperature max_retries wait
         fuel attempt last_error).
Proof.
  induction fuel as [|fuel IH]; intros attempt last_error Hfuel.
  - cbn [retry_loop].
    replace (attempt <=? max_retries)%Z with false
      by (symmetry; apply Z.leb_gt; lia).
    apply emits_ret.
  - cbn [retry_loop]. destruct (attempt <=? max_retries)%Z; [|apply emits_ret].
    intros w. unfold chat_completions_create.
    destruct client as [c|].
    + destruct (service env (requests w) model prompt temperature) as [exc|content].
      * destruct (attempt =? max_retries)%Z eqn:Eq.
        { split; [discriminate|]. eexists [_]. cbn. split; reflexivity. }
        apply Z.eqb_neq in Eq.
        destruct (float_of_int_overflows (2 ^ attempt)).
        { split; [discriminate|]. eexists [_]. cbn. split; reflexivity. }
        match goal with
        | |- context [bind ?m ?k ?w1] =>
            assert (Hk : emits (provider_events Live) (bind m k))
        end.
        { apply emits_bind; [apply emits_time_sleep; reflexivity|].
          intros _. apply IH. lia. }
        match type of Hk with
        | emits _ ?f =>
            match goal with
            | |- context [f ?w1] => destruct (Hk w1) as (Hf & evs & Htr & Hevs)
            end
        end.
        split; [exact Hf|].
        eexists (_ :: evs). rewrite Htr. cbn [trace].
        rewrite <- app_assoc. split; [reflexivity|]. cbn. exact Hevs.
      * split; [discriminate|]. eexists [_]. cbn. split; reflexivity.
    + destruct (attempt =? max_retries)%Z eqn:Eq.
      { split; [discriminate|]. exists []. cbn. now rewrite app_nil_r. }
      apply Z.eqb_neq in Eq.
      destruct (float_of_int_overflows (2 ^ attempt)).
      { split; [discriminate|]. exists []. cbn. now rewrite app_nil_r. }
      apply emits_bind; [apply emits_time_sleep; reflexivity|].
      intros _. apply IH. lia.
Qed.

Lemma emits_run_chat_completion env client model prompt temperature max_retries wait :
  emits (provider_events Live)
    (run_chat_completion env client model prompt temperature max_retries wait).
Proof.
  unfold run_chat_completion. apply emits_bind.
  - apply emits_retry_loop. lia.
  - intros [content|last_error]; [apply emits_ret | apply emits_raise].
Qed.

Section OrchestratorFacts.
Context {U : UnicodeData}.
Variable env : environment.
Variable args : Namespace.
Variable replay_lookup : gmap str replay_answers.
Variable client : option Client.

Let pv : provider := provider_in_use args replay_lookup.

Lemma emits_obtain_answers question zero_prompt cot_prompt :
  emits (provider_events pv)
    (obtain_answers env args replay_lookup client question zero_prompt cot_prompt).
Proof.
  unfold obtain_answers. subst pv. unfold provider_in_use.
  destruct (dict_truthy replay_lookup).
  - destruct (replay_lookup !! prompt question); [apply emits_ret | apply emits_raise].
  - destruct (dry_run args); [apply emits_ret|].
    apply emits_bind; [apply emits_run_chat_completion|]. intros zero_answer.
    apply emits_bind; [apply emits_time_sleep; reflexivity|]. intros _.
    apply emits_bind; [apply emits_run_chat_completion|]. intros cot_answer.
    apply emits_ret.
Qed.

Lemma emits_result_entry_for question :
  emits (provider_events pv) (result_entry_for env args replay_lookup client question).
Proof.
  unfold result_entry_for. apply emits_bind; [apply emits_obtain_answers|].
  intros answers. apply emits_ret.
Qed.

Lemma emits_question_loop questions :
  forall results,
    emits (provider_events pv)
      (question_loop env args replay_lookup client questions results).
Proof.
  induction questions as [|question rest IH]; intros results; cbn [question_loop].
  - apply emits_ret.
  - apply emits_bind; [apply emits_result_entry_for|]. intros result_entry.
    apply emits_bind; [apply emits_time_sleep, provider_events_sleep|].
    intros _. apply IH.
Qed.

Lemma result_entry_for_returned question w r w' :
  result_entry_for env args replay_lookup client question w = (Returned r, w') ->
  entry_for_question args question r.
Proof.
  unfold result_entry_for, bind.
  destruct (obtain_answers _ _ _ _ _ _ _ w) as [[answers|e|] w1];
    [|discriminate|discriminate].
  unfold ret. intros [= <- _]. repeat split.
Qed.

(** The loop appends one entry per question, in order. *)
Lemma question_loop_returned questions :
  forall results w final w',
    question_loop env args replay_lookup client questions results w
    = (Returned final, w') ->
    exists new, final = results ++ new
                /\ Forall2 (entry_for_question args) questions new.
Proof.
  induction questions as [|question rest IH]; intros results w final w';
    cbn [question_loop].
  - unfold ret. intros [= <- _]. exists []. rewrite app_nil_r. split; constructor.
  - unfold bind at 1.
    destruct (result_entry_for _ _ _ _ question w) as [[r|e|] w1] eqn:Er;
      [|discriminate|discriminate].
    unfold bind at 1.
    destruct (time_sleep env (pause args) w1) as [[[]|e|] w2];
      [|discriminate|discriminate].
    intros Hloop. destruct (IH _ _ _ _ Hloop) as (new & -> & Hnew).
    exists (r :: new). rewrite <- app_assoc. split; [reflexivity|].
    constructor; [|exact Hnew].
    eapply result_entry_for_returned, Er.
Qed.

(** The loop stops at the first question that raises. *)
Lemma question_loop_app pre :
  forall post results w mid w1,
    question_loop env args replay_lookup client pre results w = (Returned mid, w1) ->
    question_loop env args replay_lookup client (pre ++ post) results w
    = question_loop env args replay_lookup client post mid w1.
Proof.
  induction pre as [|question rest IH]; intros post results w mid w1;
    cbn [question_loop app].
  - unfold ret. now intros [= <- <-].
  - unfold bind at 1 3.
    destruct (result_entry_for _ _ _ _ question w) as [[r|e|] w2];
      [|discriminate|discriminate].
    unfold bind at 1 2.
    destruct (time_sleep env (pause args) w2) as [[[]|e|] w3];
      [|discriminate|discriminate].
    apply IH.
Qed.

(** In replay mode a question absent from the index raises KeyError with no
    effect at all. *)
Lemma result_entry_for_missing question w :
  dict_truthy replay_lookup = true ->
  replay_lookup !! prompt question = None ->
  result_entry_for env args replay_lookup client question w
  = (Raised (KeyError (prompt question)), w).
Proof.
  intros Hmode Hmiss. unfold result_entry_for, bind, obtain_answers.
  now rewrite Hmode, Hmiss.
Qed.

End OrchestratorFacts.

Lemma save_results_run results output_dir metadata save_markdown w :
  save_results results output_dir metadata save_markdown w
  = (Returned (PathDiv output_dir (meta_run_id metadata)),
     {| requests := requests w;
        trace := trace w ++ save_events results output_dir metadata save_markdown |}).
Proof.
  unfold save_results, save_events, bind, ensure_dir, write_text, emit, ret.
  cbn [requests trace]. destruct save_markdown; cbn [requests trace];
    rewrite <- ?app_assoc; reflexivity.
Qed.

Lemma persisted_app (a b : list event) : persisted (a ++ b) = persisted a ++ persisted b.
Proof. apply flat_map_app. Qed.

Lemma persisted_quiet (evs : list event) :
  forallb (fun e => negb (is_persistence e)) evs = true -> persisted evs = [].
Proof.
  induction evs as [|e evs IH]; [reflexivity|].
  cbn [forallb]. intros [He Hevs]%andb_prop.
  cbn [persisted flat_map]. fold (persisted evs). rewrite (IH Hevs).
  destruct e; try discriminate; reflexivity.
Qed.

Lemma persisted_save_events results output_dir metadata save_markdown :
  persisted (save_events results output_dir metadata save_markdown)
  = [(PathDiv (PathDiv output_dir (meta_run_id metadata)) (py "results.json"),
      metadata, results)].
Proof. unfold save_events. destruct save_markdown; reflexivity. Qed.

Lemma attempts_quiet pv (evs : list event) :
  pv <> Live -> forallb (provider_events pv) evs = true -> attempts evs = 0%nat.
Proof.
  intros Hpv. induction evs as [|e evs IH]; [reflexivity|].
  cbn [forallb]. intros [He Hevs]%andb_prop.
  unfold attempts in *. cbn [List.filter].
  destruct e, pv; try discriminate; try congruence; cbn; auto.
Qed.

(** ** The run as a whole *)

Section MainFacts.
Context {U : UnicodeData}.
Variable env : environment.
Variable args : Namespace.

Let questions := load_questions env (questions_file args).
Let replay_lookup := replay_lookup_of env args.
Let pv := provider_in_use args replay_lookup.
Let metadata := build_metadata env args (run_id_of env args) questions.

Lemma emits_build_client base_url : emits is_client (build_client env base_url).
Proof.
  unfold build_client. destruct (OPENAI_API_KEY env) as [[|c k]|];
    try apply emits_raise.
  destruct (openai_installed env); cbn [negb]; [|apply emits_raise].
  apply emits_bind; [now apply emits_emit | intros _; apply emits_ret].
Qed.

(** Lines 288-290: the client is built only when the Live branch will be
    taken. *)
Lemma emits_setup_client :
  emits (provider_events pv) (setup_client env args replay_lookup).
Proof.
  subst pv. unfold provider_in_use, setup_client.
  destruct (dict_truthy replay_lookup), (dry_run args); cbn [negb andb];
    try apply emits_ret.
  apply emits_bind; [|intros c; apply emits_ret].
  eapply emits_weaken; [|apply emits_build_client].
  intros [] ; simpl; auto.
Qed.

(** Every run: the events before persistence are those of the provider in
    use; persistence happens last, and only when the loop has returned one
    entry per question. *)
Lemma main_run (w : world) (r : outcome unit) (w' : world) :
  main env args w = (r, w') ->
  exists evs,
    trace w' = trace w ++ evs
    /\ match r with
       | Returned _ =>
           exists pre results,
             evs = pre ++ save_events results (Path (output_dir args)) metadata
                            (save_markdown args)
             /\ forallb (provider_events pv) pre = true
             /\ Forall2 (entry_for_question args) questions results
       | Raised _ => forallb (provider_events pv) evs = true
       | OutOfFuel => False
       end.
Proof.
  unfold main. fold questions replay_lookup metadata.
  unfold bind at 1.
  destruct (emits_setup_client w) as (Hf1 & evs1 & Htr1 & Hevs1).
  fold replay_lookup in Hf1, Htr1.
  destruct (setup_client env args replay_lookup w) as [[client|e|] w1];
    cbn [fst snd] in *;
    [|intros [= <- <-]; eauto|contradiction].
  unfold bind at 1.
  destruct (emits_question_loop env args replay_lookup client questions [] w1)
    as (Hf2 & evs2 & Htr2 & Hevs2).
  destruct (question_loop env args replay_lookup client questions [] w1)
    as [[results|e|] w2] eqn:Eloop; cbn [fst snd] in *; [| |contradiction].
  - unfold bind at 1. rewrite save_results_run. unfold ret. intros [= <- <-].
    cbn [trace].
    exists ((evs1 ++ evs2) ++ save_events results (Path (output_dir args)) metadata
              (save_markdown args)).
    split; [rewrite Htr2, Htr1, <- !app_assoc; reflexivity|].
    exists (evs1 ++ evs2), results. split; [reflexivity|].
    split; [rewrite forallb_app, Hevs1; exact Hevs2|].
    destruct (question_loop_returned _ _ _ _ _ _ _ _ _ Eloop) as (new & -> & Hnew).
    exact Hnew.
  - intros [= <- <-].
    exists (evs1 ++ evs2). split; [rewrite Htr2, Htr1, <- app_assoc; reflexivity|].
    rewrite forallb_app, Hevs1. exact Hevs2.
Qed.

End MainFacts.

Lemma forallb_not_persistence pv (evs : list event) :
  forallb (provider_events pv) evs = true ->
  forallb (fun e => negb (is_persistence e)) evs = true.
Proof.
  rewrite !forallb_forall. intros H e He.
  eapply provider_events_not_persistence, H, He.
Qed.

Lemma is_answer_correct_none {U : UnicodeData} (answer ground_truth : str) :
  is_answer_correct answer ground_truth = None <-> normalize_text ground_truth = [].
Proof.
  unfold is_answer_correct. destruct ground_truth as [|c g]; [easy|].
  cbn [is_empty]. destruct (normalize_text (c :: g)); cbn [is_empty]; easy.
Qed.

(** C9. Every run either raises, and then no directory was created and no
    file written, or returns, and then the result store ran exactly once, as
    the last effect of the run, on a record list holding one entry per
    question. It never fails to terminate. *)
Theorem persistence_is_atomic :
  forall (U : UnicodeData) (env : environment) (args : Namespace) (w : world),
    exists evs,
      trace (snd (main env args w)) = trace w ++ evs
      /\ match fst (main env args w) with
         | Returned _ =>
             exists pre results metadata,
               evs = pre ++ save_events results (Path (output_dir args)) metadata
                              (save_markdown args)
               /\ forallb (fun e => negb (is_persistence e)) pre = true
               /\ length results = length (load_questions env (questions_file args))
               /\ persisted evs
                  = [(PathDiv (PathDiv (Path (output_dir args)) (meta_run_id metadata))
                        (py "results.json"), metadata, results)]
         | Raised _ =>
             forallb (fun e => negb (is_persistence e)) evs = true
             /\ persisted evs = []
         | OutOfFuel => False
         end.
Proof.
  intros U env args w.
  destruct (main env args w) as [r w'] eqn:Emain. cbn [fst snd].
  destruct (main_run env args w r w' Emain) as (evs & Htr & Hrun).
  exists evs. split; [exact Htr|].
  destruct r as [[]|e|]; [| |exact Hrun].
  - destruct Hrun as (pre & results & -> & Hpre & Hres).
    apply forallb_not_persistence in Hpre.
    exists pre, results, (build_metadata env args (run_id_of env args)
                            (load_questions env (questions_file args))).
    repeat split; auto.
    + symmetry. eapply Forall2_length, Hres.
    + rewrite persisted_app, (persisted_quiet pre Hpre), persisted_save_events.
      reflexivity.
  - apply forallb_not_persistence in Hrun. split; [exact Hrun|].
    now apply persisted_quiet.
Qed.

(** C4 (as amended). In every completed run the persisted record sequence
    holds exactly one entry per question, in the order of the question
    source, and an entry's zero_shot_correct and cot_correct are unknown if
    and only if the question's ground truth normalizes to the empty text
    (which includes the empty ground truth). *)
Theorem records_mirror_questions :
  forall (U : UnicodeData) (env : environment) (args : Namespace) (w : world),
    fst (main env args w) = Returned tt ->
    exists evs location metadata records,
      trace (snd (main env args w)) = trace w ++ evs
      /\ persisted evs = [(location, metadata, records)]
      /\ Forall2
           (fun q r =>
              entry_question r = prompt q
              /\ entry_ground_truth r = ground_truth q
              /\ (entry_zero_shot_correct r = None
                  <-> normalize_text (ground_truth q) = [])
              /\ (entry_cot_correct r = None
                  <-> normalize_text (ground_truth q) = []))
           (load_questions env (questions_file args)) records.
Proof.
  intros U env args w.
  destruct (main env args w) as [r w'] eqn:Emain. cbn [fst snd]. intros ->.
  destruct (main_run env args w _ w' Emain) as (evs & Htr & pre & results & -> & Hpre & Hres).
  apply forallb_not_persistence in Hpre.
  eexists _, _, _, results. split; [exact Htr|]. split.
  - rewrite persisted_app, (persisted_quiet pre Hpre), persisted_save_events.
    reflexivity.
  - eapply Forall2_impl; [exact Hres|].
    intros q r (Hq & _ & Hg & _ & _ & Hz & Hc).
    rewrite Hz, Hc. repeat split; auto; apply is_answer_correct_none.
Qed.

(** A completed dry run over a scored and an unscored question. *)
Lemma records_mirror_questions_witness :
  let run := @main cpython_fragment (example_env None true)
               (example_args (Some (py "two.json")) None true) initial_world in
  exists evs location metadata records,
    trace (snd run) = trace initial_world ++ evs
    /\ persisted evs = [(location, metadata, records)]
    /\ Forall2
         (fun q r =>
            entry_question r = prompt q
            /\ entry_ground_truth r = ground_truth q
            /\ (entry_zero_shot_correct r = None
                <-> @normalize_text cpython_fragment (ground_truth q) = [])
            /\ (entry_cot_correct r = None
                <-> @normalize_text cpython_fragment (ground_truth q) = []))
         (load_questions (example_env None true) (Some (py "two.json"))) records.
Proof.
  apply (records_mirror_questions cpython_fragment (example_env None true)
           (example_args (Some (py "two.json")) None true) initial_world).
  vm_compute. reflexivity.
Defined.

(** C4 (counterexample). A completed dry run over one question whose ground
    truth is the non-empty text "?": both correctness fields are unknown. *)
Lemma unknown_with_nonempty_ground_truth :
  let run := @main cpython_fragment (example_env None true)
               (example_args (Some (py "unscored.json")) None true) initial_world in
  fst run = Returned tt
  /\ map (fun x => map (fun r => (entry_ground_truth r,
                                  entry_zero_shot_correct r,
                                  entry_cot_correct r)) (snd x))
         (persisted (trace (snd run)))
     = [[(py "?", None, None)]]
  /\ py "?" <> [].
Proof. vm_compute. repeat split. discriminate. Qed.

(** When the provider is ready the setup returns, sends no request, and at
    most builds the client. *)
Lemma setup_client_ready (env : environment) (args : Namespace) (w : world) :
  provider_ready env args = true ->
  exists client evs,
    setup_client env args (replay_lookup_of env args) w
    = (Returned client, {| requests := requests w; trace := trace w ++ evs |})
    /\ forallb is_client evs = true.
Proof.
  unfold provider_ready, setup_client. intros Hready.
  destruct (negb (dry_run args) && negb (dict_truthy (replay_lookup_of env args)))
    eqn:Elive.
  - apply andb_prop in Elive as [Hdry%negb_true_iff Hrep%negb_true_iff].
    rewrite Hdry, Hrep in Hready. cbn [orb] in Hready.
    apply andb_prop in Hready as [Hkey Hsdk].
    unfold build_client, truthy in *.
    destruct (OPENAI_API_KEY env) as [[|c k]|]; try discriminate.
    rewrite Hsdk. cbn [negb].
    eexists (Some _), [_]. split; reflexivity.
  - exists None, []. rewrite app_nil_r. destruct w. split; reflexivity.
Qed.

(** C10 (as amended). For an empty question sequence, when the replay index
    is non-empty, or dry-run is requested, or the live client can be built
    (credential set and SDK installed), the run completes and persists one
    results file under the run id, with an empty record list and
    question_count 0, and no request is sent to the service. *)
Theorem empty_run_persists_empty_records :
  forall (U : UnicodeData) (env : environment) (args : Namespace) (w : world),
    load_questions env (questions_file args) = [] ->
    provider_ready env args = true ->
    exists evs metadata,
      fst (main env args w) = Returned tt
      /\ trace (snd (main env args w)) = trace w ++ evs
      /\ persisted evs
         = [(PathDiv (PathDiv (Path (output_dir args)) (run_id_of env args))
               (py "results.json"), metadata, [])]
      /\ meta_run_id metadata = run_id_of env args
      /\ meta_question_count metadata = 0%nat
      /\ attempts evs = 0%nat
      /\ requests (snd (main env args w)) = requests w.
Proof.
  intros U env args w Hq Hready.
  set (metadata := build_metadata env args (run_id_of env args) []).
  destruct (setup_client_ready env args w Hready)
    as (client & evs1 & Hsetup & Hevs1).
  exists (evs1 ++ save_events [] (Path (output_dir args)) metadata (save_markdown args)),
    metadata.
  unfold main. rewrite Hq. fold metadata.
  rewrite (bind_returned _ _ _ _ _ Hsetup). cbn [question_loop].
  rewrite (bind_returned (ret (@nil ResultEntry)) _ _ [] _ eq_refl).
  rewrite (bind_returned _ _ _ _ _ (save_results_run _ _ _ _ _)).
  cbn [ret fst snd requests trace]. rewrite <- app_assoc.
  assert (Hquiet : forallb (fun e => negb (is_persistence e)) evs1 = true).
  { rewrite forallb_forall in *. intros e He. specialize (Hevs1 e He).
    destruct e; try discriminate; reflexivity. }
  repeat split.
  - now rewrite persisted_app, (persisted_quiet evs1 Hquiet), persisted_save_events.
  - rewrite attempts_app. unfold attempts at 2, save_events.
    replace (attempts evs1) with 0%nat.
    + destruct (save_markdown args); reflexivity.
    + clear -Hevs1. unfold attempts. induction evs1 as [|e evs IH]; [reflexivity|].
      cbn [forallb] in Hevs1. apply andb_prop in Hevs1 as [He Hevs].
      destruct e; try discriminate. cbn. now apply IH.
Qed.

(** A live run over no question, with a credential and a service that
    would fail every request. *)
Lemma empty_run_persists_empty_records_witness :
  let run := @main cpython_fragment (example_env (Some (py "sk-test")) false)
               (example_args (Some (py "empty.json")) None false) initial_world in
  exists evs metadata,
    fst run = Returned tt
    /\ trace (snd run) = trace initial_world ++ evs
    /\ persisted evs
       = [(PathDiv (PathDiv (Path (py "outputs")) (py "t1")) (py "results.json"),
           metadata, [])]
    /\ meta_run_id metadata = py "t1"
    /\ meta_question_count metadata = 0%nat
    /\ attempts evs = 0%nat
    /\ requests (snd run) = 0%nat.
Proof.
  apply (empty_run_persists_empty_records cpython_fragment
           (example_env (Some (py "sk-test")) false)
           (example_args (Some (py "empty.json")) None false) initial_world).
  - vm_compute. reflexivity.
  - vm_compute. reflexivity.
Defined.

(** C10 (counterexample). With no replay fixture, no dry-run flag and no
    credential, a run over an empty question sequence raises the
    configuration error of build_client and persists nothing. *)
Lemma empty_run_without_credential :
  @main cpython_fragment (example_env None false)
    (example_args (Some (py "empty.json")) None false) initial_world
  = (Raised EnvironmentError, initial_world)
  /\ load_questions (example_env None false) (Some (py "empty.json")) = [].
Proof. vm_compute. split; reflexivity. Qed.

(** End to end: one question "2+2是多少？" with ground truth "4", dry run,
    tag t1. One record is persisted under outputs/t1, both answers are
    scored correct, and each prompt is the question followed once by its
    suffix. *)
Lemma end_to_end_dry_run :
  let run := @main cpython_fragment (example_env None false)
               (example_args (Some (py "questions.json")) None true) initial_world in
  fst run = Returned tt
  /\ map (fun x => (fst (fst x),
                    map (fun r => (entry_zero_shot_prompt r, entry_cot_prompt r,
                                   entry_zero_shot_correct r, entry_cot_correct r))
                        (snd x)))
         (persisted (trace (snd run)))
     = [(PathDiv (PathDiv (Path (py "outputs")) (py "t1")) (py "results.json"),
         [(py "2+2是多少？ 请直接给出最终答案。",
           py "2+2是多少？ 让我们一步一步地思考。",
           Some true, Some true)])].
Proof. vm_compute. split; reflexivity. Qed.

(** ** Replay *)

Lemma load_replay_data_nonempty (items : list replay_item)
    (lookup : gmap str replay_answers) :
  lookup <> ∅ ->
  fold_left
    (fun lookup item =>
       <[rec_question item :=
           {| zero_shot := rec_zero_shot_answer item;
              cot := rec_cot_answer item |}]> lookup)
    items lookup <> ∅.
Proof.
  revert lookup. induction items as [|item items IH]; intros lookup Hne; [exact Hne|].
  cbn [fold_left]. apply IH, insert_non_empty.
Qed.

(** The replay branch is taken exactly when a fixture is supplied and its
    [records] array holds at least one record. *)
Lemma replay_lookup_truthy (env : environment) (args : Namespace) :
  dict_truthy (replay_lookup_of env args) = true
  <-> exists c p item items,
        replay_file args = Some (c :: p)
        /\ doc_records (replay_json env (c :: p)) = Some (item :: items).
Proof.
  unfold dict_truthy, replay_lookup_of, load_replay_data.
  rewrite negb_true_iff, bool_decide_eq_false. split.
  - destruct (replay_file args) as [[|c p]|]; try (intros H; now destruct H).
    destruct (doc_records (replay_json env (c :: p))) as [[|item items]|] eqn:Er;
      try (intros H; now destruct H).
    intros _. exists c, p, item, items. split; [reflexivity | exact Er].
  - intros (c & p & item & items & -> & ->).
    change (default [] (Some (item :: items))) with (item :: items).
    cbn [fold_left].
    apply load_replay_data_nonempty, insert_non_empty.
Qed.

(** Where the replay branch is taken (the replay index is non-empty), a
    question whose literal prompt text is absent from the index raises
    KeyError for that question with no effect at all: no request, no client,
    no fallback to another provider. When the run reaches such a question it
    ends with that KeyError, having built no client, sent no request and
    persisted nothing. *)
Lemma replay_missing_question_raises :
  forall (U : UnicodeData) (env : environment) (args : Namespace),
    dict_truthy (replay_lookup_of env args) = true ->
    (forall (client : option Client) (q : QuestionSpec) (w : world),
        replay_lookup_of env args !! prompt q = None ->
        result_entry_for env args (replay_lookup_of env args) client q w
        = (Raised (KeyError (prompt q)), w))
    /\ (forall (pre post : list QuestionSpec) (q : QuestionSpec)
               (w w1 : world) (results : list ResultEntry),
           load_questions env (questions_file args) = pre ++ q :: post ->
           replay_lookup_of env args !! prompt q = None ->
           question_loop env args (replay_lookup_of env args) None pre [] w
           = (Returned results, w1) ->
           main env args w = (Raised (KeyError (prompt q)), w1)
           /\ requests w1 = requests w
           /\ exists evs,
               trace w1 = trace w ++ evs
               /\ forallb (fun e => negb (is_request e) && negb (is_client e)
                                    && negb (is_persistence e)) evs = true).
Proof.
  intros U env args Hmode. split.
  - intros client q w Hmiss. now apply result_entry_for_missing.
  - intros pre post q w w1 results Hq Hmiss Hpre.
    assert (Hmain : main env args w = (Raised (KeyError (prompt q)), w1)).
    { unfold main. rewrite Hq.
      assert (Hsetup : setup_client env args (replay_lookup_of env args) w
                       = (Returned None, w)).
      { unfold setup_client. rewrite Hmode, andb_false_r. reflexivity. }
      rewrite (bind_returned _ _ _ _ _ Hsetup).
      apply bind_raised.
      rewrite (question_loop_app _ _ _ _ _ _ _ _ _ _ Hpre). cbn [question_loop].
      apply bind_raised. now apply result_entry_for_missing. }
    split; [exact Hmain|].
    destruct (main_run env args w _ w1 Hmain) as (evs & Htr & Hevs).
    assert (Hpv : provider_in_use args (replay_lookup_of env args) <> Live).
    { unfold provider_in_use. now rewrite Hmode. }
    split.
    + clear -Hpre Hmode. revert Hpre. generalize (@nil ResultEntry) as acc.
      revert w. induction pre as [|p pre IH]; intros w acc; cbn [question_loop].
      * unfold ret. now intros [= _ <-].
      * unfold bind at 1, result_entry_for, bind at 1, obtain_answers.
        rewrite Hmode.
        destruct (replay_lookup_of env args !! prompt p); [|discriminate].
        unfold ret at 1 2. unfold bind at 1.
        destruct (time_sleep_cases env (pause args) w) as [[_ ->]|[_ (e & -> & _)]];
          [|discriminate].
        intros H. apply IH in H. exact H.
    + exists evs. split; [exact Htr|].
      rewrite forallb_forall in *. intros e He.
      eapply provider_events_not_request; eauto.
Qed.

(** The first question is in the index, the second is not: the run sleeps
    once and stops with KeyError on the second prompt. *)
Lemma replay_missing_question_example :
  @main cpython_fragment (example_env None false)
    (example_args (Some (py "two.json")) (Some (py "replay.json")) false)
    initial_world
  = (Raised (KeyError (py "你好吗")), {| requests := 0; trace := [EvSleep 1] |}).
Proof.
  pose (env := example_env None false).
  pose (args := example_args (Some (py "two.json")) (Some (py "replay.json")) false).
  assert (Hmode : dict_truthy (replay_lookup_of env args) = true)
    by (vm_compute; reflexivity).
  destruct (replay_missing_question_raises cpython_fragment env args Hmode)
    as [_ Hrun].
  edestruct (Hrun [ {| prompt := py "2+2是多少？"; ground_truth := py "4"; rationale := [] |} ]
               []
               {| prompt := py "你好吗"; ground_truth := []; rationale := [] |}
               initial_world {| requests := 0; trace := [EvSleep 1] |})
    as [Hmain _].
  - vm_compute. reflexivity.
  - vm_compute. reflexivity.
  - vm_compute. reflexivity.
  - exact Hmain.
Qed.

(** ** Exceptions outside the replay branch *)

Section RaisesFacts.
Context {A B : Type}.
Variable P : exn -> bool.

Lemma raises_ret (a : A) : raises P (ret a).
Proof. intros w e w'. discriminate. Qed.

Lemma raises_raise (e : exn) : P e = true -> raises P (@raise A e).
Proof. intros HP w e' w'. unfold raise. now intros [= <- _]. Qed.

Lemma raises_bind (m : M A) (k : A -> M B) :
  raises P m -> (forall a, raises P (k a)) -> raises P (bind m k).
Proof.
  intros Hm Hk w e w'. unfold bind.
  destruct (m w) as [[a|e1|] w1] eqn:Em.
  - apply Hk.
  - intros [= <- _]. eapply Hm, Em.
  - discriminate.
Qed.

End RaisesFacts.

Lemma raises_emit (P : exn -> bool) (e : event) : raises P (emit e).
Proof. intros w e' w'. discriminate. Qed.

Lemma raises_time_sleep (env : environment) (secs : Q) :
  raises not_data_error (time_sleep env secs).
Proof.
  intros w e w'.
  destruct (time_sleep_cases env secs w) as [[_ ->]|[_ (e1 & -> & He1)]];
    [discriminate|].
  intros [= <- _]. unfold not_data_error. now rewrite He1.
Qed.

Lemma raises_retry_loop env client model prompt temperature max_retries wait :
  forall (fuel : nat) (attempt : Z) (last_error : option api_error),
    raises not_data_error
      (retry_loop env client model prompt temperature max_retries wait
         fuel attempt last_error).
Proof.
  induction fuel as [|fuel IH]; intros attempt last_error w e w'; cbn [retry_loop];
    (destruct (attempt <=? max_retries)%Z; [|discriminate]); [discriminate|].
  destruct (chat_completions_create env client model prompt temperature w)
    as [[exc|content] w1]; [|discriminate].
  destruct (attempt =? max_retries)%Z; [discriminate|].
  destruct (float_of_int_overflows (2 ^ attempt)); [now intros [= <- _]|].
  apply raises_bind; [apply raises_time_sleep | intros _; apply IH].
Qed.

Lemma raises_run_chat_completion env client model prompt temperature max_retries wait :
  raises not_data_error
    (run_chat_completion env client model prompt temperature max_retries wait).
Proof.
  unfold run_chat_completion. apply raises_bind; [apply raises_retry_loop|].
  intros [content|last_error]; [apply raises_ret | now apply raises_raise].
Qed.

(** Outside the replay branch no question raises a data error, whether or
    not a replay fixture was supplied. *)
Lemma raises_question_loop {U : UnicodeData} (env : environment) (args : Namespace)
    (replay_lookup : gmap str replay_answers) (client : option Client) :
  dict_truthy replay_lookup = false ->
  forall questions results,
    raises not_data_error
      (question_loop env args replay_lookup client questions results).
Proof.
  intros Hrep. induction questions as [|q rest IH]; intros results;
    cbn [question_loop]; [apply raises_ret|].
  apply raises_bind.
  - unfold result_entry_for. apply raises_bind; [|intros; apply raises_ret].
    unfold obtain_answers. rewrite Hrep.
    destruct (dry_run args); [apply raises_ret|].
    apply raises_bind; [apply raises_run_chat_completion|]. intros zero_answer.
    apply raises_bind; [apply raises_time_sleep|]. intros _.
    apply raises_bind; [apply raises_run_chat_completion|]. intros cot_answer.
    apply raises_ret.
  - intros r. apply raises_bind; [apply raises_time_sleep | intros _; apply IH].
Qed.

Lemma raises_main {U : UnicodeData} (env : environment) (args : Namespace) :
  dict_truthy (replay_lookup_of env args) = false ->
  raises not_data_error (main env args).
Proof.
  intros Hrep. unfold main. apply raises_bind.
  - unfold setup_client, build_client.
    destruct (negb (dry_run args) && negb (dict_truthy (replay_lookup_of env args)));
      [|apply raises_ret].
    apply raises_bind; [|intros; apply raises_ret].
    destruct (OPENAI_API_KEY env) as [[|c k]|]; try now apply raises_raise.
    destruct (negb (openai_installed env)); [now apply raises_raise|].
    apply raises_bind; [apply raises_emit | intros; apply raises_ret].
  - intros client. apply raises_bind; [now apply raises_question_loop|].
    intros results. apply raises_bind; [|intros; apply raises_ret].
    intros w e w'. now rewrite save_results_run.
Qed.

(** C8 (the code at the failing input). A replay fixture is supplied, so the
    specified provider is Replay, but the fixture holds no record, so the
    literal prompt text of every question is absent from the index. The
    branch that main takes for every question is then not the replay branch
    but the Simulated one (dry run) or the Live one, and no run ends with
    the data error, for any question, in any environment. *)
Theorem replay_fixture_without_records_raises_no_data_error :
  forall (U : UnicodeData) (env : environment) (args : Namespace),
    truthy (replay_file args) = true ->
    replay_lookup_of env args = ∅ ->
    provider_as_specified args = Replay
    /\ (forall q : QuestionSpec, replay_lookup_of env args !! prompt q = None)
    /\ provider_in_use args (replay_lookup_of env args)
       = (if dry_run args then Simulated else Live)
    /\ (forall (w : world) (e : exn) (w' : world),
           main env args w = (Raised e, w') -> is_data_error e = false).
Proof.
  intros U env args Hfile Hempty.
  assert (Hrep : dict_truthy (replay_lookup_of env args) = false).
  { unfold dict_truthy. rewrite Hempty. reflexivity. }
  split; [unfold provider_as_specified; now rewrite Hfile|].
  split; [intros q; rewrite Hempty; apply lookup_empty|].
  split; [unfold provider_in_use; now rewrite Hrep|].
  intros w e w' Hmain.
  apply negb_true_iff. exact (raises_main env args Hrep w e w' Hmain).
Qed.

(** The fixture no_records.json is the object {} and the questions are
    those of two.json, both absent from the index. With a credential the
    run takes the Live branch, sends two requests for each of the two
    questions and completes; without a credential it stops with the
    configuration error of build_client before any question. *)
Lemma replay_fixture_without_records_raises_no_data_error_witness :
  let args := example_args (Some (py "two.json")) (Some (py "no_records.json")) false in
  let offline := example_env None true in
  let online := example_env (Some (py "sk-test")) true in
  provider_as_specified args = Replay
  /\ (forall q : QuestionSpec, replay_lookup_of online args !! prompt q = None)
  /\ provider_in_use args (replay_lookup_of online args) = Live
  /\ fst (@main cpython_fragment online args initial_world) = Returned tt
  /\ attempts (trace (snd (@main cpython_fragment online args initial_world))) = 4%nat
  /\ @main cpython_fragment offline args initial_world
     = (Raised EnvironmentError, initial_world).
Proof.
  intros args offline online.
  destruct (replay_fixture_without_records_raises_no_data_error cpython_fragment
              online args) as (Hspec & Habsent & Hlive & _).
  - reflexivity.
  - vm_compute. reflexivity.
  - split; [exact Hspec|]. split; [exact Habsent|]. split; [exact Hlive|].
    vm_compute. repeat split.
Defined.

(** ** Provider selection *)

(** Where the replay branch and a supplied fixture coincide, the branch
    taken is the specified provider. *)
Lemma provider_in_use_as_specified (env : environment) (args : Namespace) :
  dict_truthy (replay_lookup_of env args) = truthy (replay_file args) ->
  provider_in_use args (replay_lookup_of env args) = provider_as_specified args.
Proof. unfold provider_in_use, provider_as_specified. now intros ->. Qed.

(** C1 (the code at the failing input). A replay fixture without records is
    supplied and dry-run is off: the specified provider is Replay, but the
    run takes the Live branch. Without a credential it stops with the
    configuration error of build_client; with a credential it builds the live
    client, sends two requests for the one question, completes, and still
    records the fixture path in the metadata. *)
Theorem replay_fixture_without_records_goes_live :
  let args := example_args (Some (py "questions.json")) (Some (py "no_records.json"))
                false in
  let offline := example_env None true in
  let online := example_env (Some (py "sk-test")) true in
  provider_as_specified args = Replay
  /\ provider_in_use args (replay_lookup_of offline args) = Live
  /\ @main cpython_fragment offline args initial_world
     = (Raised EnvironmentError, initial_world)
  /\ fst (@main cpython_fragment online args initial_world) = Returned tt
  /\ List.filter is_client (trace (snd (@main cpython_fragment online args initial_world)))
     = [EvClient example_client]
  /\ attempts (trace (snd (@main cpython_fragment online args initial_world))) = 2%nat
  /\ map (fun x => meta_replay_file (snd (fst x)))
         (persisted (trace (snd (@main cpython_fragment online args initial_world))))
     = [Some (py "no_records.json")].
Proof. vm_compute. repeat split. Qed.

(** * Further properties of the code *)

(** ** PromptBuilder *)

(** X1. The prompt built from any question and suffix neither begins nor ends
    with a whitespace code point. *)
Theorem build_prompt_has_no_outer_whitespace :
  forall (U : UnicodeData) (q s : str),
    (forall c rest, build_prompt q s = c :: rest -> isspace c = false)
    /\ (forall front c, build_prompt q s = front ++ [c] -> isspace c = false).
Proof.
  intros U q s.
  assert (Hst : stripped (build_prompt q s)).
  { unfold build_prompt.
    destruct (negb (is_empty (strip s)) && negb (endswith q (strip s)));
      apply strip_stripped. }
  split.
  - intros c rest E. eapply stripped_head; eauto.
  - intros front c E.
    destruct (stripped_last _ Hst) as (m & b & Hm & Hb).
    + rewrite E. now destruct front.
    + rewrite E in Hm. apply app_inj_tail in Hm as [_ ->]. exact Hb.
Qed.

(** The prompt built from "  Q " and " s " is "Q s". *)
Lemma build_prompt_has_no_outer_whitespace_witness :
  @isspace cpython_fragment 0x51 = false /\ @isspace cpython_fragment 0x73 = false.
Proof.
  destruct (build_prompt_has_no_outer_whitespace cpython_fragment (py "  Q ") (py " s "))
    as [Hhead Hlast].
  split.
  - apply (Hhead 0x51 [0x20; 0x73]). vm_compute. reflexivity.
  - apply (Hlast [0x51; 0x20] 0x73). vm_compute. reflexivity.
Defined.

(** X2. The builder only appends: the prompt always starts with the trimmed
    question and always ends with the trimmed suffix. *)
Theorem build_prompt_keeps_question_and_suffix :
  forall (U : UnicodeData) (q s : str),
    startswith (build_prompt q s) (strip q) = true
    /\ endswith (build_prompt q s) (strip s) = true.
Proof.
  intros U q s. rewrite startswith_spec, endswith_true. unfold build_prompt.
  pose proof (strip_stripped s) as Hs. pose proof (strip_stripped q) as Hq.
  destruct (is_empty (strip s)) eqn:Ee; cbn [negb andb].
  - apply is_empty_true in Ee. rewrite Ee. split.
    + exists []. now rewrite app_nil_r.
    + exists (strip q). now rewrite app_nil_r.
  - apply is_empty_false in Ee.
    destruct (endswith q (strip s)) eqn:Eq; cbn [negb andb].
    + split; [exists []; now rewrite app_nil_r|].
      apply endswith_true. now apply endswith_strip.
    + rewrite app_assoc, (strip_app_stripped _ _ Hs Ee). split; [|eauto].
      destruct (strip q) as [|a r] eqn:E; [exists (lstrip [0x20] ++ strip s); reflexivity|].
      cbn [app lstrip]. rewrite (stripped_head _ _ _ Hq eq_refl).
      exists ([0x20] ++ strip s). cbn [app]. now rewrite <- app_assoc.
Qed.

(** ** Evaluator *)

Section ScoreComposition.
Context {U : UnicodeData}.

Lemma is_answer_correct_by_normal_forms (answer ground_truth : str) :
  is_answer_correct answer ground_truth
  = if is_empty (normalize_text ground_truth) then None
    else Some (contains (normalize_text answer) (normalize_text ground_truth)).
Proof.
  unfold is_answer_correct. destruct ground_truth; reflexivity.
Qed.

Lemma is_answer_correct_embedded (l answer r ground_truth : str) :
  is_answer_correct answer ground_truth = Some true ->
  is_answer_correct (l ++ answer ++ r) ground_truth = Some true.
Proof.
  rewrite !is_answer_correct_by_normal_forms.
  destruct (is_empty (normalize_text ground_truth)); [discriminate|].
  intros [= (l' & r' & E)%contains_spec]. f_equal. apply contains_spec.
  rewrite !normalize_text_app, E.
  exists (normalize_text l ++ l'), (r' ++ normalize_text r).
  now rewrite <- !app_assoc.
Qed.

Lemma is_answer_correct_verbatim (l r ground_truth : str) :
  normalize_text ground_truth <> [] ->
  is_answer_correct (l ++ ground_truth ++ r) ground_truth = Some true.
Proof.
  intros Hne%is_empty_false. rewrite is_answer_correct_by_normal_forms, Hne.
  f_equal. apply contains_spec. rewrite !normalize_text_app. eauto.
Qed.

End ScoreComposition.

(** X3. Text added before or after an answer never turns a correct answer
    into an incorrect or unscored one. *)
Theorem correct_answer_stays_correct_when_embedded :
  forall (U : UnicodeData) (l answer r ground_truth : str),
    is_answer_correct answer ground_truth = Some true ->
    is_answer_correct (l ++ answer ++ r) ground_truth = Some true.
Proof. intros U. apply is_answer_correct_embedded. Qed.

(** An answer scored correct, then wrapped in a sentence. *)
Lemma correct_answer_stays_correct_when_embedded_witness :
  @is_answer_correct cpython_fragment (py "答案是" ++ py "30" ++ py "个，不是20个。") (py "30")
  = Some true.
Proof.
  apply (correct_answer_stays_correct_when_embedded cpython_fragment).
  vm_compute. reflexivity.
Defined.

(** X4. An answer that quotes the ground truth verbatim is scored correct
    whenever the ground truth has at least one alphanumeric code point
    (normalizes to a non-empty text). *)
Theorem verbatim_ground_truth_is_correct :
  forall (U : UnicodeData) (l r ground_truth : str),
    normalize_text ground_truth <> [] ->
    is_answer_correct (l ++ ground_truth ++ r) ground_truth = Some true.
Proof. intros U. apply is_answer_correct_verbatim. Qed.

Lemma verbatim_ground_truth_is_correct_witness :
  @is_answer_correct cpython_fragment (py "一共" ++ py "27 只" ++ py "老鼠") (py "27 只")
  = Some true.
Proof.
  apply (verbatim_ground_truth_is_correct cpython_fragment).
  vm_compute. discriminate.
Defined.

(** X5. The score depends only on the normalized texts: two answers with the
    same normalization, scored against two ground truths with the same
    normalization, get the same score (true, false or unknown). *)
Theorem score_depends_on_normal_forms :
  forall (U : UnicodeData) (answer answer' ground_truth ground_truth' : str),
    normalize_text answer = normalize_text answer' ->
    normalize_text ground_truth = normalize_text ground_truth' ->
    is_answer_correct answer ground_truth = is_answer_correct answer' ground_truth'.
Proof.
  intros U a a' g g' Ha Hg.
  now rewrite !is_answer_correct_by_normal_forms, Ha, Hg.
Qed.

Lemma score_depends_on_normal_forms_witness :
  @is_answer_correct cpython_fragment (py "The answer: X-30.") (py "x30")
  = @is_answer_correct cpython_fragment (py "theanswerx30") (py "X 30!").
Proof.
  apply (score_depends_on_normal_forms cpython_fragment); vm_compute; reflexivity.
Defined.

Lemma is_answer_correct_simulated {U : UnicodeData} (question : QuestionSpec) (mode : str) :
  is_answer_correct (simulate_answer question mode) (ground_truth question)
  = if is_empty (normalize_text (ground_truth question)) then None else Some true.
Proof.
  destruct (is_empty (normalize_text (ground_truth question))) eqn:En.
  - now rewrite is_answer_correct_by_normal_forms, En.
  - apply is_empty_false in En.
    assert (Hg : or_unknown (ground_truth question) = ground_truth question).
    { unfold or_unknown. destruct (ground_truth question); [|reflexivity].
      now destruct En. }
    unfold simulate_answer. rewrite Hg.
    destruct (bool_decide (mode = py "cot")).
    + rewrite !(app_assoc _ _ (ground_truth question ++ _)).
      rewrite !app_assoc, <- (app_assoc _ (ground_truth question)).
      now apply is_answer_correct_verbatim.
    + rewrite <- (app_nil_r (ground_truth question)) at 1.
      rewrite !app_assoc, <- (app_assoc _ (ground_truth question)).
      now apply is_answer_correct_verbatim.
Qed.

(** X6. A simulated (dry-run) answer is never scored incorrect: in both modes
    its score against the question's own ground truth is unknown when the
    ground truth normalizes to the empty text, and true otherwise. *)
Theorem simulated_answer_score :
  forall (U : UnicodeData) (question : QuestionSpec) (mode : str),
    is_answer_correct (simulate_answer question mode) (ground_truth question)
    = if is_empty (normalize_text (ground_truth question)) then None else Some true.
Proof. intros U. apply is_answer_correct_simulated. Qed.

(** ** RetryingExecutor *)

(** X7. With a negative max_retries the loop body never runs: no request is
    sent, nothing is slept, and RuntimeError is raised with no last error,
    whatever the service would have answered. *)
Theorem negative_max_retries_sends_nothing :
  forall (env : environment) (client : option Client) (model prompt : str)
         (temperature : Q) (max_retries : Z) (retry_wait : Q) (w : world),
    (max_retries < 0)%Z ->
    run_chat_completion env client model prompt temperature max_retries retry_wait w
    = (Raised (RuntimeError (ApiCallFailed None)), w).
Proof.
  intros env client model prompt temperature max_retries retry_wait w Hneg.
  unfold run_chat_completion, bind.
  assert (Hexit : forall fuel,
             retry_loop env client model prompt temperature max_retries retry_wait
               fuel 0%Z None w = (Returned (inr None), w)).
  { intros fuel.
    destruct fuel; cbn [retry_loop];
      (replace (0 <=? max_retries)%Z with false by (symmetry; apply Z.leb_gt; lia));
      reflexivity. }
  now rewrite Hexit.
Qed.

Lemma negative_max_retries_sends_nothing_witness :
  run_chat_completion (example_env None true) (Some example_client)
    (py "gpt-4o-mini") (py "2+2是多少？") (1 # 10) (-1) 1 initial_world
  = (Raised (RuntimeError (ApiCallFailed None)), initial_world).
Proof. apply negative_max_retries_sends_nothing. lia. Defined.

(** Whatever the service does, the delays slept by the loop started at
    attempt [a] are the first [k] delays of the schedule from [a] on. *)
Lemma retry_loop_schedule env client model prompt temperature max_retries wait :
  forall (fuel a : nat) (last_error : option api_error) (w : world),
    exists evs k,
      trace (snd (retry_loop env client model prompt temperature max_retries wait
                    fuel (Z.of_nat a) last_error w)) = trace w ++ evs
      /\ delays evs = map (backoff wait) (seq a k)
      /\ (k <= Z.to_nat (max_retries - Z.of_nat a))%nat
      /\ (attempts evs <= Z.to_nat (max_retries + 1 - Z.of_nat a))%nat
      /\ requests (snd (retry_loop env client model prompt temperature max_retries wait
                          fuel (Z.of_nat a) last_error w))
         = (requests w + attempts evs)%nat.
Proof.
  assert (Hnil : forall (w : world) a,
             exists evs k,
               trace w = trace w ++ evs
               /\ delays evs = map (backoff wait) (seq a k)
               /\ (k <= Z.to_nat (max_retries - Z.of_nat a))%nat
               /\ (attempts evs <= Z.to_nat (max_retries + 1 - Z.of_nat a))%nat
               /\ requests w = (requests w + attempts evs)%nat).
  { intros w a. exists [], 0%nat. rewrite app_nil_r. cbn. repeat split; lia. }
  induction fuel as [|fuel IH]; intros a last_error w; cbn [retry_loop].
  - destruct (Z.of_nat a <=? max_retries)%Z; apply Hnil.
  - destruct (Z.of_nat a <=? max_retries)%Z eqn:Ele; [|apply Hnil].
    apply Z.leb_le in Ele.
    unfold chat_completions_create. destruct client as [c|].
    + set (req := EvRequest c model prompt temperature).
      set (w1 := {| requests := S (requests w); trace := trace w ++ [req] |}).
      assert (Hone : forall r : outcome (str + option api_error),
                 exists evs k,
                   trace (snd (r, w1)) = trace w ++ evs
                   /\ delays evs = map (backoff wait) (seq a k)
                   /\ (k <= Z.to_nat (max_retries - Z.of_nat a))%nat
                   /\ (attempts evs <= Z.to_nat (max_retries + 1 - Z.of_nat a))%nat
                   /\ requests (snd (r, w1)) = (requests w + attempts evs)%nat).
      { intros r. exists [req], 0%nat. cbn. repeat split; lia. }
      destruct (service env (requests w) model prompt temperature) as [exc|content];
        [|apply Hone].
      destruct (Z.of_nat a =? max_retries)%Z eqn:Eeq; [apply Hone|].
      apply Z.eqb_neq in Eeq.
      destruct (float_of_int_overflows (2 ^ Z.of_nat a)); [apply Hone|].
      fold (backoff wait a).
      destruct (time_sleep_cases env (backoff wait a) w1) as [[_ Eq]|[_ (e & Eq & _)]].
      * rewrite (bind_returned _ _ _ _ _ Eq).
        replace (Z.of_nat a + 1)%Z with (Z.of_nat (S a)) by lia.
        match goal with
        | |- context [retry_loop _ _ _ _ _ _ _ fuel _ ?le ?w2] =>
            destruct (IH (S a) le w2) as (evs & k & Htr & Hdel & Hk & Hatt & Hreq)
        end.
        exists (req :: EvSleep (backoff wait a) :: evs), (S k).
        rewrite Htr, Hreq. cbn [requests trace w1]. rewrite <- !app_assoc.
        split; [reflexivity|]. split; [cbn; now rewrite <- Hdel|].
        split; [lia|]. unfold attempts in *. cbn. split; lia.
      * rewrite (bind_raised _ _ _ _ _ Eq).
        apply Hone.
    + destruct (Z.of_nat a =? max_retries)%Z eqn:Eeq; [apply Hnil|].
      apply Z.eqb_neq in Eeq.
      destruct (float_of_int_overflows (2 ^ Z.of_nat a)); [apply Hnil|].
      fold (backoff wait a).
      destruct (time_sleep_cases env (backoff wait a) w) as [[_ Eq]|[_ (e & Eq & _)]].
      * rewrite (bind_returned _ _ _ _ _ Eq).
        replace (Z.of_nat a + 1)%Z with (Z.of_nat (S a)) by lia.
        match goal with
        | |- context [retry_loop _ _ _ _ _ _ _ fuel _ ?le ?w2] =>
            destruct (IH (S a) le w2) as (evs & k & Htr & Hdel & Hk & Hatt & Hreq)
        end.
        exists (EvSleep (backoff wait a) :: evs), (S k).
        rewrite Htr, Hreq. cbn [requests trace]. rewrite <- !app_assoc.
        split; [reflexivity|]. split; [cbn; now rewrite <- Hdel|].
        split; [lia|]. unfold attempts in *. cbn. split; lia.
      * rewrite (bind_raised _ _ _ _ _ Eq).
        apply Hnil.
Qed.

Lemma run_chat_completion_schedule env client model prompt temperature max_retries wait w :
  exists evs k,
    trace (snd (run_chat_completion env client model prompt temperature
                  max_retries wait w)) = trace w ++ evs
    /\ delays evs = map (backoff wait) (seq 0%nat k)
    /\ (k <= Z.to_nat max_retries)%nat
    /\ (attempts evs <= Z.to_nat (max_retries + 1))%nat
    /\ requests (snd (run_chat_completion env client model prompt temperature
                        max_retries wait w))
       = (requests w + attempts evs)%nat.
Proof.
  destruct (retry_loop_schedule env client model prompt temperature max_retries wait
              (Z.to_nat (max_retries + 1)) 0%nat None w)
    as (evs & k & Htr & Hdel & Hk & Hatt & Hreq).
  exists evs, k. change (Z.of_nat 0%nat) with 0%Z in *.
  rewrite Z.sub_0_r in Hk, Hatt.
  unfold run_chat_completion, bind.
  destruct (retry_loop env client model prompt temperature max_retries wait
              (Z.to_nat (max_retries + 1)) 0 None w) as [[[content|le]|e|] w1];
    cbn [fst snd] in *; auto.
Qed.

(** X8. Whatever the service answers and whatever the options are, one
    invocation of the executor sends at most max_retries + 1 requests, and
    the delays it sleeps are an initial segment, of length at most
    max_retries, of the schedule retry_wait * 2^0, retry_wait * 2^1, ... *)
Theorem executor_never_exceeds_its_budget :
  forall (env : environment) (client : option Client) (model prompt : str)
         (temperature : Q) (max_retries : Z) (retry_wait : Q) (w : world),
    exists evs k,
      trace (snd (run_chat_completion env client model prompt temperature
                    max_retries retry_wait w)) = trace w ++ evs
      /\ delays evs = map (backoff retry_wait) (seq 0%nat k)
      /\ (k <= Z.to_nat max_retries)%nat
      /\ (attempts evs <= Z.to_nat (max_retries + 1))%nat
      /\ requests (snd (run_chat_completion env client model prompt temperature
                          max_retries retry_wait w))
         = (requests w + attempts evs)%nat.
Proof. intros. apply run_chat_completion_schedule. Qed.

Lemma total_delay_schedule (wait : Q) (k : nat) :
  forall a,
    (total_delay (map (backoff wait) (seq a k))
     == wait * inject_Z (2 ^ Z.of_nat (a + k)%nat - 2 ^ Z.of_nat a))%Q.
Proof.
  induction k as [|k IH]; intros a.
  - cbn [seq map total_delay fold_right]. rewrite Nat.add_0_r, Z.sub_diag.
    now rewrite Qmult_0_r.
  - cbn [seq map total_delay fold_right]. fold (total_delay (map (backoff wait) (seq (S a) k))).
    rewrite IH. unfold backoff. rewrite <- Qmult_plus_distr_r, <- inject_Z_plus.
    replace (S a + k)%nat with (a + S k)%nat by lia.
    replace (Z.of_nat (S a)) with (Z.succ (Z.of_nat a)) by lia.
    rewrite Z.pow_succ_r by lia.
    match goal with
    | |- (_ * inject_Z ?x == _ * inject_Z ?y)%Q => replace x with y by lia
    end.
    reflexivity.
Qed.

(** X9. With retry_wait >= 0 and max_retries >= 0, the time slept by one
    invocation of the executor is at most retry_wait * (2^max_retries - 1),
    whatever the service does. *)
Theorem total_backoff_is_bounded :
  forall (env : environment) (client : option Client) (model prompt : str)
         (temperature : Q) (max_retries : Z) (retry_wait : Q) (w : world),
    (0 <= max_retries)%Z ->
    (0 <= retry_wait)%Q ->
    exists evs,
      trace (snd (run_chat_completion env client model prompt temperature
                    max_retries retry_wait w)) = trace w ++ evs
      /\ (total_delay (delays evs) <= retry_wait * inject_Z (2 ^ max_retries - 1))%Q.
Proof.
  intros env client model prompt temperature max_retries retry_wait w Hmax Hwait.
  destruct (run_chat_completion_schedule env client model prompt temperature
              max_retries retry_wait w) as (evs & k & Htr & Hdel & Hk & _).
  exists evs. split; [exact Htr|].
  rewrite Hdel, total_delay_schedule. cbn [Nat.add Z.of_nat Z.pow].
  change (2 ^ 0)%Z with 1%Z.
  rewrite !(Qmult_comm retry_wait).
  apply Qmult_le_compat_r; [|exact Hwait].
  rewrite <- Zle_Qle.
  assert (2 ^ Z.of_nat k <= 2 ^ max_retries)%Z by (apply Z.pow_le_mono_r; lia).
  lia.
Qed.

Lemma total_backoff_is_bounded_witness :
  exists evs,
    trace (snd (run_chat_completion (example_env None false) (Some example_client)
                  (py "gpt-4o-mini") (py "2+2是多少？") (1 # 10) 2 1 initial_world))
    = trace initial_world ++ evs
    /\ (total_delay (delays evs) <= 1 * inject_Z (2 ^ 2 - 1))%Q.
Proof.
  apply total_backoff_is_bounded; [lia | unfold Qle; simpl; lia].
Defined.

(** ** Runs without the service *)

Section OfflineRuns.
Context {U : UnicodeData}.
Variable env : environment.
Variable args : Namespace.
Variable replay_lookup : gmap str replay_answers.
Variable client : option Client.

(** When the entry of every question is obtained without effect and the
    pause is a length that time.sleep sleeps (or there is no question), the
    loop appends the entries in order and sleeps once per question. *)
Lemma question_loop_effect_free (entry : QuestionSpec -> ResultEntry)
    (questions : list QuestionSpec) :
  (questions <> [] -> sleep_accepted env (pause args) = true) ->
  (forall q w, In q questions ->
     result_entry_for env args replay_lookup client q w = (Returned (entry q), w)) ->
  forall results w,
    question_loop env args replay_lookup client questions results w
    = (Returned (results ++ map entry questions),
       {| requests := requests w;
          trace := trace w ++ repeat (EvSleep (pause args)) (length questions) |}).
Proof.
  induction questions as [|q rest IH]; intros Hpause Hentry results w;
    cbn [question_loop map length repeat].
  - rewrite !app_nil_r. now destruct w.
  - assert (Hsleep : sleep_accepted env (pause args) = true) by now apply Hpause.
    rewrite (bind_returned _ _ _ _ _ (Hentry q w (or_introl eq_refl))).
    rewrite (bind_returned _ _ _ _ _ (time_sleep_accepted env (pause args) w Hsleep)).
    rewrite IH by (auto; intros; apply Hentry; now right).
    cbn [requests trace]. now rewrite <- !app_assoc.
Qed.

(** A loop over at least one question returns only if the pause was slept. *)
Lemma question_loop_returned_pause (q : QuestionSpec) (rest : list QuestionSpec)
    (results final : list ResultEntry) (w w' : world) :
  question_loop env args replay_lookup client (q :: rest) results w
  = (Returned final, w') ->
  sleep_accepted env (pause args) = true.
Proof.
  cbn [question_loop]. unfold bind at 1.
  destruct (result_entry_for env args replay_lookup client q w) as [[r|e|] w1];
    [|discriminate|discriminate].
  unfold bind at 1.
  destruct (time_sleep_cases env (pause args) w1) as [[Ha _]|[_ (e & -> & _)]];
    [intros _; exact Ha | discriminate].
Qed.

Lemma result_entry_for_dry_run question w :
  dict_truthy replay_lookup = false ->
  dry_run args = true ->
  result_entry_for env args replay_lookup client question w
  = (Returned (simulated_entry args question), w).
Proof.
  intros Hrep Hdry. unfold result_entry_for, bind, obtain_answers.
  now rewrite Hrep, Hdry.
Qed.


End OfflineRuns.

Lemma setup_client_offline (env : environment) (args : Namespace)
    (replay_lookup : gmap str replay_answers) (w : world) :
  dict_truthy replay_lookup || dry_run args = true ->
  setup_client env args replay_lookup w = (Returned None, w).
Proof.
  unfold setup_client. intros H.
  destruct (dict_truthy replay_lookup), (dry_run args); try discriminate; reflexivity.
Qed.

(** The run after the loop has returned. *)
Lemma main_after_loop {U : UnicodeData} (env : environment) (args : Namespace)
    (client : option Client) (w w1 w2 : world) (results : list ResultEntry) :
  setup_client env args (replay_lookup_of env args) w = (Returned client, w1) ->
  question_loop env args (replay_lookup_of env args) client
    (load_questions env (questions_file args)) [] w1 = (Returned results, w2) ->
  main env args w
  = (Returned tt,
     {| requests := requests w2;
        trace := trace w2
                 ++ save_events results (Path (output_dir args))
                      (build_metadata env args (run_id_of env args)
                         (load_questions env (questions_file args)))
                      (save_markdown args) |}).
Proof.
  intros Hsetup Hloop. unfold main.
  rewrite (bind_returned _ _ _ _ _ Hsetup), (bind_returned _ _ _ _ _ Hloop).
  now rewrite (bind_returned _ _ _ _ _ (save_results_run _ _ _ _ _)).
Qed.



Lemma main_dry_run {U : UnicodeData} (env : environment) (args : Namespace) (w : world) :
  dict_truthy (replay_lookup_of env args) = false ->
  dry_run args = true ->
  (load_questions env (questions_file args) <> [] ->
   sleep_accepted env (pause args) = true) ->
  main env args w
  = (Returned tt,
     {| requests := requests w;
        trace := trace w
                 ++ repeat (EvSleep (pause args))
                      (length (load_questions env (questions_file args)))
                 ++ save_events
                      (map (simulated_entry args) (load_questions env (questions_file args)))
                      (Path (output_dir args))
                      (build_metadata env args (run_id_of env args)
                         (load_questions env (questions_file args)))
                      (save_markdown args) |}).
Proof.
  intros Hrep Hdry Hpause.
  set (questions := load_questions env (questions_file args)) in *.
  rewrite (main_after_loop env args None w w
             {| requests := requests w;
                trace := trace w ++ repeat (EvSleep (pause args)) (length questions) |}
             (map (simulated_entry args) questions)).
  - cbn [requests trace]. now rewrite <- app_assoc.
  - apply setup_client_offline. now rewrite Hdry, orb_true_r.
  - fold questions.
    rewrite (question_loop_effect_free env args _ None (simulated_entry args) questions Hpause);
      [reflexivity|].
    intros q w0 _. now apply result_entry_for_dry_run.
Qed.







(** A pause of -10^10 seconds is out of the range of time.sleep: the same
    dry run stops with OverflowError, not ValueError. *)
Lemma overlong_negative_pause_overflows :
  @main cpython_fragment (example_env None false)
    (set_dry_run true
       {| model := py "m"; temperature := 0; cot_suffix := []; zero_shot_suffix := [];
          max_retries := 0; retry_wait := 0; pause := - (10000000000 # 1);
          output_dir := py "outputs";
          questions_file := None; base_url := None; replay_file := None;
          dry_run := false; save_markdown := false; tag := None |})
    initial_world
  = (Raised OverflowError, initial_world).
Proof. vm_compute. reflexivity. Qed.

(** X13. In Live mode (no dry run, empty replay index) a missing or empty
    OPENAI_API_KEY stops the run with EnvironmentError, and a present key
    with the SDK missing stops it with RuntimeError, in both cases before
    any question is processed and without any effect. *)
Theorem configuration_errors_come_first :
  forall (U : UnicodeData) (env : environment) (args : Namespace) (w : world),
    dict_truthy (replay_lookup_of env args) = false ->
    dry_run args = false ->
    (truthy (OPENAI_API_KEY env) = false ->
     main env args w = (Raised EnvironmentError, w))
    /\ (truthy (OPENAI_API_KEY env) = true -> openai_installed env = false ->
        main env args w = (Raised (RuntimeError SdkNotInstalled), w)).
Proof.
  intros U env args w Hrep Hdry. unfold main, setup_client.
  rewrite Hrep, Hdry. cbn [negb andb]. unfold build_client, truthy. split.
  - intros Hkey. apply bind_raised, bind_raised.
    destruct (OPENAI_API_KEY env) as [[|c k]|]; try discriminate; reflexivity.
  - intros Hkey Hsdk. apply bind_raised, bind_raised.
    destruct (OPENAI_API_KEY env) as [[|c k]|]; try discriminate.
    now rewrite Hsdk.
Qed.

Lemma configuration_errors_come_first_witness :
  @main cpython_fragment (example_env (Some []) true)
    (example_args None None false) initial_world
  = (Raised EnvironmentError, initial_world)
  /\ @main cpython_fragment
       {| OPENAI_API_KEY := Some (py "sk-test");
          openai_installed := false;
          questions_json := example_questions_json;
          replay_json := example_replay_json;
          service := fun _ _ _ _ => inr (py "4");
          os_sleep := fun _ => true;
          clock_stamp := py "20260101-000000";
          clock_isoformat := py "2026-01-01T00:00:00" |}
       (example_args None None false) initial_world
     = (Raised (RuntimeError SdkNotInstalled), initial_world).
Proof.
  split.
  - apply (configuration_errors_come_first cpython_fragment (example_env (Some []) true)
             (example_args None None false) initial_world); reflexivity.
  - apply (configuration_errors_come_first cpython_fragment); reflexivity.
Defined.

(** ** Live runs *)



Section LiveRuns.
Context {U : UnicodeData}.
Variable env : environment.
Variable args : Namespace.
Variable replay_lookup : gmap str replay_answers.
Variable c : Client.
Hypothesis no_replay : dict_truthy replay_lookup = false.
Hypothesis no_dry_run : dry_run args = false.
Hypothesis retries_nonneg : (0 <= max_retries args)%Z.



End LiveRuns.






(** ** The persisted artifact *)

(** X16. In every completed run the metadata written to results.json
    agrees with the run: question_count equals the number of persisted
    records, run_id is the tag when one is given and non-empty and the clock
    stamp otherwise, the file lies at output_dir/run_id/results.json, and the
    replay_file key is present exactly when a non-empty --replay-file was
    given. *)
Theorem metadata_agrees_with_run :
  forall (U : UnicodeData) (env : environment) (args : Namespace) (w : world),
    fst (main env args w) = Returned tt ->
    exists evs metadata records,
      trace (snd (main env args w)) = trace w ++ evs
      /\ persisted evs
         = [(PathDiv (PathDiv (Path (output_dir args)) (meta_run_id metadata))
               (py "results.json"), metadata, records)]
      /\ meta_question_count metadata = length records
      /\ meta_run_id metadata
         = (if truthy (tag args) then default [] (tag args) else clock_stamp env)
      /\ meta_replay_file metadata
         = (if truthy (replay_file args) then replay_file args else None)
      /\ meta_timestamp metadata = clock_isoformat env.
Proof.
  intros U env args w.
  destruct (main env args w) as [r w'] eqn:Emain. cbn [fst snd]. intros ->.
  destruct (main_run env args w _ w' Emain)
    as (evs & Htr & pre & results & -> & Hpre & Hres).
  apply forallb_not_persistence in Hpre.
  eexists _, _, results. split; [exact Htr|]. split.
  - rewrite persisted_app, (persisted_quiet pre Hpre), persisted_save_events.
    reflexivity.
  - cbn [build_metadata meta_question_count meta_run_id meta_replay_file meta_timestamp].
    repeat split.
    + eapply Forall2_length, Hres.
    + unfold run_id_of, truthy. destruct (tag args) as [[|c t]|]; reflexivity.
Qed.

Lemma metadata_agrees_with_run_witness :
  exists evs metadata records,
    trace (snd (@main cpython_fragment (example_env None false)
                  (example_args (Some (py "two.json")) None true) initial_world))
    = trace initial_world ++ evs
    /\ persisted evs
       = [(PathDiv (PathDiv (Path (py "outputs")) (meta_run_id metadata))
             (py "results.json"), metadata, records)]
    /\ meta_question_count metadata = length records
    /\ meta_run_id metadata = py "t1"
    /\ meta_replay_file metadata = None
    /\ meta_timestamp metadata = py "2026-01-01T00:00:00".
Proof.
  apply (metadata_agrees_with_run cpython_fragment (example_env None false)
           (example_args (Some (py "two.json")) None true) initial_world).
  vm_compute. reflexivity.
Defined.

(** ** Precedence of the replay index *)

Lemma question_loop_set_dry_run {U : UnicodeData} (env : environment) (args : Namespace)
    (replay_lookup : gmap str replay_answers) (client : option Client) (flag : bool) :
  dict_truthy replay_lookup = true ->
  forall questions results w,
    question_loop env (set_dry_run flag args) replay_lookup client questions results w
    = question_loop env args replay_lookup client questions results w.
Proof.
  intros Hrep. induction questions as [|q rest IH]; intros results w; [reflexivity|].
  cbn [question_loop].
  assert (Hentry : result_entry_for env (set_dry_run flag args) replay_lookup client q w
                   = result_entry_for env args replay_lookup client q w).
  { unfold result_entry_for, obtain_answers. now rewrite Hrep. }
  unfold bind at 1 3. rewrite Hentry.
  destruct (result_entry_for env args replay_lookup client q w) as [[r|e|] w1];
    try reflexivity.
  change (pause (set_dry_run flag args)) with (pause args).
  unfold bind. destruct (time_sleep env (pause args) w1) as [[[]|e|] w2]; try reflexivity.
  apply IH.
Qed.

(** X17. When the replay index is non-empty the dry-run flag has no effect
    at all: the run with the flag set and the run with the flag cleared have
    the same outcome and the same effects. *)
Theorem replay_index_overrides_dry_run :
  forall (U : UnicodeData) (env : environment) (args : Namespace) (flag : bool)
         (w : world),
    dict_truthy (replay_lookup_of env args) = true ->
    main env (set_dry_run flag args) w = main env args w.
Proof.
  intros U env args flag w Hrep. unfold main.
  change (replay_lookup_of env (set_dry_run flag args)) with (replay_lookup_of env args).
  rewrite !(bind_returned _ _ _ _ _
              (setup_client_offline env _ (replay_lookup_of env args) w
                 ltac:(now rewrite Hrep))).
  unfold bind at 1 3.
  change (questions_file (set_dry_run flag args)) with (questions_file args).
  rewrite (question_loop_set_dry_run env args _ None flag Hrep).
  reflexivity.
Qed.

Lemma replay_index_overrides_dry_run_witness :
  @main cpython_fragment (example_env None false)
    (set_dry_run true
       (example_args (Some (py "questions.json")) (Some (py "replay.json")) false))
    initial_world
  = @main cpython_fragment (example_env None false)
      (example_args (Some (py "questions.json")) (Some (py "replay.json")) false)
      initial_world.
Proof.
  apply replay_index_overrides_dry_run. vm_compute. reflexivity.
Defined.

(** ** The replay index *)

Section ReplayIndex.

Let index_record (lookup : gmap str replay_answers) (item : replay_item) :=
  <[rec_question item :=
      {| zero_shot := rec_zero_shot_answer item; cot := rec_cot_answer item |}]> lookup.

Lemma index_lookup_none (items : list replay_item) :
  forall (lookup : gmap str replay_answers) (q : str),
    fold_left index_record items lookup !! q = None
    <-> lookup !! q = None /\ ~ In q (map rec_question items).
Proof.
  induction items as [|item items IH]; intros lookup q; cbn [fold_left map In].
  - tauto.
  - rewrite IH. unfold index_record. rewrite lookup_insert_None. tauto.
Qed.

Lemma index_lookup_later (items : list replay_item) :
  forall (lookup : gmap str replay_answers) (q : str),
    ~ In q (map rec_question items) ->
    fold_left index_record items lookup !! q = lookup !! q.
Proof.
  induction items as [|item items IH]; intros lookup q Hq; cbn [fold_left]; [reflexivity|].
  cbn [map In] in Hq. rewrite IH by tauto.
  unfold index_record. apply lookup_insert_ne. tauto.
Qed.

Lemma load_replay_data_lookup (env : environment) (path : str) :
  let records := default [] (doc_records (replay_json env path)) in
  (forall q, load_replay_data env path !! q = None
             <-> ~ In q (map rec_question records))
  /\ (forall pre item post,
         records = pre ++ item :: post ->
         ~ In (rec_question item) (map rec_question post) ->
         load_replay_data env path !! rec_question item
         = Some {| zero_shot := rec_zero_shot_answer item;
                   cot := rec_cot_answer item |}).
Proof.
  intros records. unfold load_replay_data. fold records. fold index_record. split.
  - intros q. rewrite index_lookup_none, lookup_empty. tauto.
  - intros pre item post -> Hlast.
    rewrite fold_left_app. cbn [fold_left].
    rewrite (index_lookup_later post _ _ Hlast).
    unfold index_record at 1. apply lookup_insert_eq.
Qed.

End ReplayIndex.

(** X18. The replay index built from a fixture has no entry for a question
    exactly when no record of the fixture has that question text, and for a
    question that occurs in several records it holds the answers of the last
    of them. *)
Theorem replay_index_keeps_last_record :
  forall (env : environment) (path : str),
    let records := default [] (doc_records (replay_json env path)) in
    (forall q, load_replay_data env path !! q = None
               <-> ~ In q (map rec_question records))
    /\ (forall pre item post,
           records = pre ++ item :: post ->
           ~ In (rec_question item) (map rec_question post) ->
           load_replay_data env path !! rec_question item
           = Some {| zero_shot := rec_zero_shot_answer item;
                     cot := rec_cot_answer item |}).
Proof. intros env path. apply load_replay_data_lookup. Qed.

(** In repeated.json the question "2+2是多少？" is recorded first with the
    answers "5" and "2+2=5" and, two records later, with "4" and "2+2=4":
    the index holds the later answers; the question "1+1" is in no record
    and has no entry. *)
Lemma replay_index_keeps_last_record_witness :
  load_replay_data (example_env None false) (py "repeated.json") !! py "2+2是多少？"
  = Some {| zero_shot := py "4"; cot := py "2+2=4" |}
  /\ load_replay_data (example_env None false) (py "repeated.json") !! py "1+1" = None.
Proof.
  destruct (replay_index_keeps_last_record (example_env None false) (py "repeated.json"))
    as [Hnone Hlast].
  split.
  - apply (Hlast
             [ {| rec_question := py "2+2是多少？"; rec_zero_shot_answer := py "5";
                  rec_cot_answer := py "2+2=5" |};
               {| rec_question := py "你好吗"; rec_zero_shot_answer := py "好";
                  rec_cot_answer := py "很好" |} ]
             {| rec_question := py "2+2是多少？"; rec_zero_shot_answer := py "4";
                rec_cot_answer := py "2+2=4" |}
             []).
    + reflexivity.
    + intros [].
  - apply Hnone. vm_compute. intros [H|[H|[H|[]]]]; discriminate.
Defined.

(** ** Questions read from a file *)

Lemma load_questions_from_file (env : environment) (path : str) :
  path <> [] ->
  load_questions env (Some path)
  = map (fun item =>
           {| prompt := item_prompt item;
              ground_truth := default [] (item_ground_truth item);
              rationale := default [] (item_rationale item) |})
        (questions_json env path).
Proof. intros Hne. destruct path; [now destruct Hne | reflexivity]. Qed.

(** X19. In a completed run over a questions file, the records follow the
    items of the file in order, and an item without a ground_truth key is
    stored with an empty ground truth and with both correctness fields
    unknown, whatever the answers were; an item without a rationale key is
    stored with an empty rationale. *)
Theorem items_without_ground_truth_are_unscored :
  forall (U : UnicodeData) (env : environment) (args : Namespace) (w : world)
         (path : str),
    questions_file args = Some path ->
    path <> [] ->
    fst (main env args w) = Returned tt ->
    exists evs location metadata records,
      trace (snd (main env args w)) = trace w ++ evs
      /\ persisted evs = [(location, metadata, records)]
      /\ Forall2
           (fun item r =>
              entry_question r = item_prompt item
              /\ (item_ground_truth item = None ->
                  entry_ground_truth r = []
                  /\ entry_zero_shot_correct r = None
                  /\ entry_cot_correct r = None)
              /\ (item_rationale item = None -> entry_rationale r = []))
           (questions_json env path) records.
Proof.
  intros U env args w path Hfile Hne.
  destruct (main env args w) as [r w'] eqn:Emain. cbn [fst snd]. intros ->.
  destruct (main_run env args w _ w' Emain)
    as (evs & Htr & pre & results & -> & Hpre & Hres).
  apply forallb_not_persistence in Hpre.
  eexists _, _, _, results. split; [exact Htr|]. split.
  - rewrite persisted_app, (persisted_quiet pre Hpre), persisted_save_events.
    reflexivity.
  - rewrite Hfile, (load_questions_from_file env path Hne) in Hres.
    clear -Hres. revert results Hres.
    induction (questions_json env path) as [|item items IH]; intros results Hres;
      cbn [map] in Hres; inversion Hres as [|q r qs rs Hqr Hrest]; subst;
      constructor; [|now apply IH].
    destruct Hqr as (Hq & Hrat & Hg & _ & _ & Hz & Hc). cbn in Hq, Hrat, Hg, Hz, Hc.
    split; [exact Hq|]. split.
    + intros Hnone. rewrite Hnone in *. cbn in *. now rewrite Hz, Hc.
    + intros Hnone. now rewrite Hnone in Hrat.
Qed.

Lemma items_without_ground_truth_are_unscored_witness :
  exists evs location metadata records,
    trace (snd (@main cpython_fragment (example_env None false)
                  (example_args (Some (py "two.json")) None true) initial_world))
    = trace initial_world ++ evs
    /\ persisted evs = [(location, metadata, records)]
    /\ Forall2
         (fun item r =>
            entry_question r = item_prompt item
            /\ (item_ground_truth item = None ->
                entry_ground_truth r = []
                /\ entry_zero_shot_correct r = None
                /\ entry_cot_correct r = None)
            /\ (item_rationale item = None -> entry_rationale r = []))
         (questions_json (example_env None false) (py "two.json")) records.
Proof.
  apply (items_without_ground_truth_are_unscored cpython_fragment (example_env None false)
           (example_args (Some (py "two.json")) None true) initial_world
           (py "two.json")).
  - reflexivity.
  - discriminate.
  - vm_compute. reflexivity.
Defined.

(** ** Accuracy summary of the report *)

Lemma hits_le_length (flags : list (option bool)) : (hits flags <= length flags)%nat.
Proof. unfold hits. apply List.filter_length_le. Qed.

Lemma hits_all (flags : list (option bool)) :
  hits flags = length flags <-> Forall (fun flag => flag = Some true) flags.
Proof.
  unfold hits. induction flags as [|flag flags IH]; cbn [List.filter length].
  - split; [constructor | reflexivity].
  - pose proof (List.filter_length_le flag_truthy flags) as Hle.
    destruct flag as [[|]|]; cbn [flag_truthy length].
    + rewrite Nat.succ_inj_wd, IH. split.
      * intros H. now constructor.
      * intros H. now inversion H.
    + split; [lia | intros H; inversion H; discriminate].
    + split; [lia | intros H; inversion H; discriminate].
Qed.

Lemma accuracy_bounds (h t : nat) :
  (h <= t)%nat -> (0 <= accuracy h t)%Q /\ (accuracy h t <= 1)%Q.
Proof.
  intros Hle. unfold accuracy. destruct t as [|t].
  - split; [apply Qle_refl | discriminate].
  - assert (Hpos : (0 < inject_Z (Z.of_nat (S t)))%Q).
    { change 0%Q with (inject_Z 0). rewrite <- Zlt_Qlt. lia. }
    split.
    + apply Qle_shift_div_l; [exact Hpos|]. rewrite Qmult_0_l.
      change 0%Q with (inject_Z 0). rewrite <- Zle_Qle. lia.
    + apply Qle_shift_div_r; [exact Hpos|]. rewrite Qmult_1_l.
      rewrite <- Zle_Qle. lia.
Qed.

(** X20. The accuracy summary never counts more hits than records, its two
    accuracies lie between 0 and 1, and for an empty record list both
    accuracies are 0 (no division by zero). *)
Theorem summarize_accuracy_bounds :
  forall (records : list ResultEntry),
    total (summarize_accuracy records) = length records
    /\ (zero_hits (summarize_accuracy records) <= length records)%nat
    /\ (cot_hits (summarize_accuracy records) <= length records)%nat
    /\ (0 <= zero_acc (summarize_accuracy records) <= 1)%Q
    /\ (0 <= cot_acc (summarize_accuracy records) <= 1)%Q
    /\ zero_acc (summarize_accuracy []) = 0%Q
    /\ cot_acc (summarize_accuracy []) = 0%Q.
Proof.
  intros records. cbn [summarize_accuracy total zero_hits cot_hits zero_acc cot_acc].
  pose proof (hits_le_length (map entry_zero_shot_correct records)) as Hz.
  pose proof (hits_le_length (map entry_cot_correct records)) as Hc.
  rewrite length_map in Hz, Hc.
  repeat split; try assumption; try (now apply accuracy_bounds).
Qed.

(** X21. The summary reports every record as a hit for a strategy exactly
    when every record's correctness flag for that strategy is true: a record
    scored false or left unknown counts as a miss. *)
Theorem unknown_counts_as_miss :
  forall (records : list ResultEntry),
    (zero_hits (summarize_accuracy records) = total (summarize_accuracy records)
     <-> Forall (fun r => entry_zero_shot_correct r = Some true) records)
    /\ (cot_hits (summarize_accuracy records) = total (summarize_accuracy records)
        <-> Forall (fun r => entry_cot_correct r = Some true) records).
Proof.
  intros records. cbn [summarize_accuracy total zero_hits cot_hits].
  split.
  - rewrite <- (length_map entry_zero_shot_correct records), hits_all, Forall_map.
    reflexivity.
  - rewrite <- (length_map entry_cot_correct records), hits_all, Forall_map.
    reflexivity.
Qed.

(** X22. The report of a dry run is always perfect on scored questions: when
    every question's ground truth has an alphanumeric code point, the
    records persisted by a completed dry run are all hits for both
    strategies. *)
Theorem dry_run_reports_full_accuracy :
  forall (U : UnicodeData) (env : environment) (args : Namespace) (w : world),
    dict_truthy (replay_lookup_of env args) = false ->
    dry_run args = true ->
    fst (main env args w) = Returned tt ->
    (forall q, In q (load_questions env (questions_file args)) ->
       normalize_text (ground_truth q) <> []) ->
    exists evs location metadata records,
      trace (snd (main env args w)) = trace w ++ evs
      /\ persisted evs = [(location, metadata, records)]
      /\ zero_hits (summarize_accuracy records) = length records
      /\ cot_hits (summarize_accuracy records) = length records.
Proof.
  intros U env args w Hrep Hdry Hdone Hscored.
  assert (Hpause : load_questions env (questions_file args) <> [] ->
                   sleep_accepted env (pause args) = true).
  { intros Hne. revert Hdone. unfold main.
    rewrite (bind_returned _ _ _ _ _
               (setup_client_offline env args (replay_lookup_of env args) w
                  ltac:(now rewrite Hdry, orb_true_r))).
    unfold bind at 1.
    destruct (load_questions env (questions_file args)) as [|q rest] eqn:Eq;
      [now destruct Hne|].
    destruct (question_loop env args (replay_lookup_of env args) None (q :: rest) [] w)
      as [[results|e|] w2] eqn:Eloop; [|discriminate|discriminate].
    intros _. eapply question_loop_returned_pause, Eloop. }
  rewrite (main_dry_run env args w Hrep Hdry Hpause). cbn [snd trace].
  set (questions := load_questions env (questions_file args)) in *.
  eexists _, _, _, (map (simulated_entry args) questions). split; [reflexivity|].
  split.
  - rewrite persisted_app, persisted_save_events.
    rewrite persisted_quiet; [reflexivity|].
    apply forallb_forall. intros e He. apply repeat_spec in He. now subst e.
  - assert (Hall : Forall (fun r => entry_zero_shot_correct r = Some true
                                    /\ entry_cot_correct r = Some true)
                     (map (simulated_entry args) questions)).
    { apply Forall_map, Forall_forall. intros q Hq%list_elem_of_In.
      cbn [simulated_entry entry_with_answers entry_zero_shot_correct entry_cot_correct].
      pose proof (Hscored q Hq) as Hne%is_empty_false.
      now rewrite !is_answer_correct_simulated, Hne. }
    cbn [summarize_accuracy zero_hits cot_hits].
    split.
    + rewrite <- (length_map entry_zero_shot_correct). apply hits_all, Forall_map.
      eapply Forall_impl; [exact Hall|]. now intros r [Hz Hc].
    + rewrite <- (length_map entry_cot_correct). apply hits_all, Forall_map.
      eapply Forall_impl; [exact Hall|]. now intros r [Hz Hc].
Qed.

Lemma dry_run_reports_full_accuracy_witness :
  exists evs location metadata records,
    trace (snd (@main cpython_fragment (example_env None false)
                  (example_args (Some (py "questions.json")) None true) initial_world))
    = trace initial_world ++ evs
    /\ persisted evs = [(location, metadata, records)]
    /\ zero_hits (summarize_accuracy records) = length records
    /\ cot_hits (summarize_accuracy records) = length records.
Proof.
  apply (dry_run_reports_full_accuracy cpython_fragment (example_env None false)
           (example_args (Some (py "questions.json")) None true) initial_world).
  - vm_compute. reflexivity.
  - reflexivity.
  - vm_compute. reflexivity.
  - intros q [<-|[]]. vm_compute. discriminate.
Defined.

(** ** Markdown export *)

Lemma count_newlines_app (a b : str) :
  count_newlines (a ++ b) = (count_newlines a + count_newlines b)%nat.
Proof. unfold count_newlines. now rewrite List.filter_app, length_app. Qed.

Lemma count_newlines_decimal (d : Decimal.uint) : count_newlines (decimal_digits d) = 0%nat.
Proof. induction d; cbn [decimal_digits]; try reflexivity; exact IHd. Qed.

Lemma count_newlines_flag (flag : option bool) : count_newlines (str_of_flag flag) = 0%nat.
Proof. destruct flag as [[|]|]; reflexivity. Qed.

Lemma count_newlines_replace (s : str) : count_newlines (replace_newlines s) = 0%nat.
Proof.
  induction s as [|ch s IH]; [reflexivity|].
  unfold replace_newlines. cbn [flat_map]. fold (replace_newlines s).
  rewrite count_newlines_app, IH.
  destruct (ch =? 0x0A) eqn:E; [reflexivity|].
  unfold count_newlines. cbn [List.filter]. now rewrite E.
Qed.

Lemma count_newlines_join (lines : list str) :
  count_newlines (join [0x0A] lines)
  = (sum_nat (map count_newlines lines) + pred (length lines))%nat.
Proof.
  induction lines as [|line rest IH]; [reflexivity|].
  destruct rest as [|line' rest].
  - cbn [join map sum_nat fold_right length pred]. lia.
  - change (join [0x0A] (line :: line' :: rest))
      with (line ++ [0x0A] ++ join [0x0A] (line' :: rest)).
    rewrite !count_newlines_app, IH. cbn [map sum_nat fold_right length pred].
    change (count_newlines [0x0A]) with 1%nat. lia.
Qed.

Lemma sum_nat_app (a b : list nat) : sum_nat (a ++ b) = (sum_nat a + sum_nat b)%nat.
Proof.
  unfold sum_nat. induction a as [|x a IH]; cbn [app fold_right]; [reflexivity|].
  rewrite IH. lia.
Qed.

Lemma count_newlines_row (idx : nat) (item : ResultEntry) :
  count_newlines (markdown_row idx item) = count_newlines (entry_question item).
Proof.
  unfold markdown_row, str_of_nat. rewrite !count_newlines_app.
  rewrite count_newlines_decimal, !count_newlines_replace, !count_newlines_flag.
  change (count_newlines (py "| ")) with 0%nat.
  change (count_newlines (py " | ")) with 0%nat.
  change (count_newlines (py " |")) with 0%nat.
  lia.
Qed.

Lemma markdown_rows_newlines (results : list ResultEntry) :
  forall idx,
    length (markdown_rows idx results) = length results
    /\ sum_nat (map count_newlines (markdown_rows idx results))
       = sum_nat (map (fun r => count_newlines (entry_question r)) results).
Proof.
  induction results as [|item rest IH]; intros idx; [split; reflexivity|].
  destruct (IH (S idx)) as [Hlen Hsum].
  cbn [markdown_rows length map sum_nat fold_right]. fold sum_nat.
  unfold sum_nat in Hsum. rewrite Hlen, Hsum, count_newlines_row. split; reflexivity.
Qed.

Lemma metadata_lines_newlines (float_str : Q -> str) (metadata : Metadata) :
  sum_nat (map count_newlines (map metadata_line (metadata_items float_str metadata)))
  = sum_nat (map (fun item => count_newlines (snd item))
               (metadata_items float_str metadata)).
Proof.
  assert (Hkeys : Forall (fun item => count_newlines (fst item) = 0%nat)
                    (metadata_items float_str metadata)).
  { unfold metadata_items. destruct (meta_replay_file metadata); repeat constructor. }
  induction Hkeys as [|item items Hkey _ IH]; [reflexivity|].
  cbn [map sum_nat fold_right]. fold sum_nat. unfold sum_nat in IH. rewrite IH.
  unfold metadata_line. rewrite !count_newlines_app, Hkey.
  change (count_newlines (py "- **")) with 0%nat.
  change (count_newlines (py "**: ")) with 0%nat.
  lia.
Qed.

(** X23. Newlines of the Markdown export. The text has one line per entry of
    its fixed frame (9 lines), per metadata key and per result, and the only
    further line breaks are those inside a metadata value or inside a question
    text, which are copied unescaped: an answer never adds a line, because
    each of its newlines is replaced by <br>. *)
Theorem markdown_newlines :
  forall (float_str : Q -> str) (results : list ResultEntry) (metadata : Metadata),
    count_newlines (format_markdown float_str results metadata)
    = (8 + length (metadata_items float_str metadata) + length results
       + sum_nat (map (fun item => count_newlines (snd item))
                    (metadata_items float_str metadata))
       + sum_nat (map (fun r => count_newlines (entry_question r)) results))%nat.
Proof.
  intros float_str results metadata. unfold format_markdown.
  rewrite count_newlines_join.
  destruct (markdown_rows_newlines results 1) as [Hlen Hsum].
  rewrite !map_app, !sum_nat_app, !length_app, !length_map.
  rewrite metadata_lines_newlines, Hsum, Hlen.
  cbn [map sum_nat fold_right length].
  change (count_newlines (py "# Zero-Shot vs Zero-Shot-CoT")) with 0%nat.
  change (count_newlines (py "## 元信息")) with 0%nat.
  change (count_newlines (py "## 结果对比")) with 0%nat.
  change (count_newlines
            (py "| 序号 | 问题 | Zero-Shot 摘要 | CoT 摘要 | Zero-Shot 正确 | CoT 正确 |"))
    with 0%nat.
  change (count_newlines (py "| --- | --- | --- | --- | --- | --- |")) with 0%nat.
  change (count_newlines []) with 0%nat.
  lia.
Qed.

(** ** What a run never does *)

(** X24. A run in dry-run mode or with a non-empty replay index never builds
    a client and never sends a request to the service, whether it completes
    or raises, and whatever the credential, the pause and the fixtures are. *)
Theorem offline_runs_never_touch_the_service :
  forall (U : UnicodeData) (env : environment) (args : Namespace) (w : world),
    dict_truthy (replay_lookup_of env args) || dry_run args = true ->
    exists evs,
      trace (snd (main env args w)) = trace w ++ evs
      /\ attempts evs = 0%nat
      /\ List.filter is_client evs = [].
Proof.
  intros U env args w Hoff.
  assert (Hpv : provider_in_use args (replay_lookup_of env args) <> Live).
  { unfold provider_in_use.
    destruct (dict_truthy (replay_lookup_of env args)), (dry_run args);
      discriminate. }
  assert (Hquiet : forall evs,
             forallb (provider_events (provider_in_use args (replay_lookup_of env args)))
               evs = true ->
             attempts evs = 0%nat /\ List.filter is_client evs = []).
  { intros evs Hevs. split; [eapply attempts_quiet; eauto|].
    induction evs as [|e evs IH]; [reflexivity|].
    cbn [forallb] in Hevs. apply andb_prop in Hevs as [He Hevs].
    pose proof (provider_events_not_request _ e Hpv He) as Hn.
    destruct e; cbn in Hn; try discriminate; cbn [List.filter is_client]; now apply IH. }
  destruct (main env args w) as [r w'] eqn:Emain. cbn [snd].
  destruct (main_run env args w r w' Emain) as (evs & Htr & Hrun).
  exists evs. split; [exact Htr|].
  destruct r as [[]|e|]; [|now apply Hquiet|contradiction].
  destruct Hrun as (pre & results & -> & Hpre & _).
  destruct (Hquiet pre Hpre) as [Hatt Hcl].
  rewrite attempts_app, List.filter_app, Hatt, Hcl.
  unfold attempts, save_events. destruct (save_markdown args); split; reflexivity.
Qed.

Lemma offline_runs_never_touch_the_service_witness :
  exists evs,
    trace (snd (@main cpython_fragment (example_env (Some (py "sk-test")) true)
                  (example_args (Some (py "two.json")) (Some (py "replay.json")) false)
                  initial_world))
    = trace initial_world ++ evs
    /\ attempts evs = 0%nat
    /\ List.filter is_client evs = [].
Proof.
  apply (offline_runs_never_touch_the_service cpython_fragment).
  vm_compute. reflexivity.
Defined.

Section Costs.
Context {A B : Type}.

Lemma costs_ret (a : A) : costs 0 (ret a).
Proof. intros w. cbn. lia. Qed.

Lemma costs_raise (e : exn) : costs 0 (@raise A e).
Proof. intros w. cbn. lia. Qed.

Lemma costs_bind (k1 k2 : nat) (m : M A) (f : A -> M B) :
  costs k1 m -> (forall a, costs k2 (f a)) -> costs (k1 + k2) (bind m f).
Proof.
  intros Hm Hf w. unfold bind. specialize (Hm w).
  destruct (m w) as [[a|e|] w1]; cbn [snd] in *; try lia.
  specialize (Hf a w1). lia.
Qed.

Lemma costs_weaken (k k' : nat) (m : M A) : (k <= k')%nat -> costs k m -> costs k' m.
Proof. intros Hle Hm w. specialize (Hm w). lia. Qed.

End Costs.

Lemma costs_time_sleep (env : environment) (secs : Q) : costs 0 (time_sleep env secs).
Proof.
  intros w.
  destruct (time_sleep_cases env secs w) as [[_ ->]|[_ (e & -> & _)]]; cbn; lia.
Qed.

Lemma costs_run_chat_completion env client model prompt temperature max_retries wait :
  costs (Z.to_nat (max_retries + 1))
    (run_chat_completion env client model prompt temperature max_retries wait).
Proof.
  intros w.
  destruct (run_chat_completion_schedule env client model prompt temperature
              max_retries wait w) as (evs & k & _ & _ & _ & Hatt & Hreq).
  lia.
Qed.

Section CostOfARun.
Context {U : UnicodeData}.
Variable env : environment.
Variable args : Namespace.

Let budget : nat := Z.to_nat (max_retries args + 1).

Lemma costs_result_entry_for replay_lookup client question :
  costs (2 * budget) (result_entry_for env args replay_lookup client question).
Proof.
  unfold result_entry_for, obtain_answers.
  apply (costs_weaken (2 * budget + 0)); [lia|].
  apply costs_bind; [|intros; apply costs_ret].
  destruct (dict_truthy replay_lookup).
  - apply (costs_weaken 0); [lia|].
    destruct (replay_lookup !! prompt question); [apply costs_ret | apply costs_raise].
  - destruct (dry_run args); [apply (costs_weaken 0); [lia | apply costs_ret]|].
    apply (costs_weaken (budget + (0 + (budget + 0)))); [lia|].
    apply costs_bind; [apply costs_run_chat_completion|]. intros zero_answer.
    apply costs_bind; [apply costs_time_sleep|]. intros _.
    apply costs_bind; [apply costs_run_chat_completion|]. intros cot_answer.
    apply costs_ret.
Qed.

Lemma costs_question_loop replay_lookup client questions :
  forall results,
    costs (2 * budget * length questions)
      (question_loop env args replay_lookup client questions results).
Proof.
  induction questions as [|q rest IH]; intros results; cbn [question_loop length].
  - apply (costs_weaken 0); [lia | apply costs_ret].
  - apply (costs_weaken (2 * budget + (0 + 2 * budget * length rest))); [lia|].
    apply costs_bind; [apply costs_result_entry_for|]. intros result_entry.
    apply costs_bind; [apply costs_time_sleep|]. intros _. apply IH.
Qed.

Lemma costs_main :
  costs (2 * budget * length (load_questions env (questions_file args))) (main env args).
Proof.
  unfold main.
  apply (costs_weaken (0 + (2 * budget * length (load_questions env (questions_file args))
                            + (0 + 0)))); [lia|].
  apply costs_bind.
  - unfold setup_client, build_client.
    destruct (negb (dry_run args) && negb (dict_truthy (replay_lookup_of env args)));
      [|apply costs_ret].
    intros w. unfold bind, emit, ret, raise.
    destruct (OPENAI_API_KEY env) as [[|c k]|]; cbn; try lia.
    destruct (openai_installed env); cbn; lia.
  - intros client. apply costs_bind; [apply costs_question_loop|]. intros results.
    apply costs_bind; [|intros; apply costs_ret].
    intros w. rewrite save_results_run. cbn. lia.
Qed.

End CostOfARun.

(** X25. Whatever the service does and however the run ends, a run sends at
    most 2 * (max_retries + 1) requests per question (none at all when
    max_retries is negative). *)
Theorem requests_of_a_run_are_bounded :
  forall (U : UnicodeData) (env : environment) (args : Namespace) (w : world),
    (requests (snd (main env args w))
     <= requests w
        + 2 * Z.to_nat (max_retries args + 1)
          * length (load_questions env (questions_file args)))%nat.
Proof. intros U env args w. apply costs_main. Qed.
